(** * tux3 commit flusher: fs/tux3/commit_flusher.c

    A shallow embedding of the delta flusher of tux3, in its two build
    configurations (TUX3_FLUSHER_SYNC and TUX3_FLUSHER_ASYNC), and the
    properties of it that the design document states.

    The C functions are written as programs over the atomic accesses they
    make to the shared superblock ([op]); a program is run either as one
    thread, with the rest of the system acting between any two of its
    accesses ([run]), or as one of several threads under a schedule
    ([run_schedule]).

    Not modelled: the [trace()] debugging output, and the store of
    [unify_flag] into the delta reference that only UNIFY_DEBUG builds make.
    A sleeping thread may be woken at any time, which covers every
    [wake_up_all] the rest of the system can make. *)

From Stdlib Require Import ZArith List Bool Lia PeanoNat.
Import ListNotations.
Local Open Scope Z_scope.

(* ------------------------------------------------------------------ *)
(** ** Epoch counters *)

(** [unsigned] is 32 bits wide. *)
Definition DELTA_BITS : Z := 32.
Definition DELTA_RANGE : Z := 2 ^ DELTA_BITS.
Definition HALF_RANGE : Z := 2 ^ (DELTA_BITS - 1).

(** Truncation of an integer to [unsigned]. *)
Definition to_unsigned (x : Z) : Z := x mod DELTA_RANGE.

(** The [(int)] cast of an [unsigned] value. *)
Definition to_signed (x : Z) : Z :=
  if x <? HALF_RANGE then x else x - DELTA_RANGE.

(** Modelled from the spec: [delta_after_eq] is declared in tux3.h, which is
    not part of the flusher source.  The design document defines it as the
    signed interpretation of the unsigned difference [a - b] being [>= 0]. *)
Definition delta_after_eq (a b : Z) : bool :=
  0 <=? to_signed (to_unsigned (a - b)).

(* ------------------------------------------------------------------ *)
(** ** Kernel constants and types used by the flusher *)

(** [-ERESTARTSYS] is what a killable wait returns on a fatal signal. *)
Definition ERESTARTSYS : Z := 512.

(** [MS_ACTIVE] in [super_block.s_flags]. *)
Definition MS_ACTIVE : Z := Z.shiftl 1 30.

(** [enum unify_flags] (tux3.h). *)
Inductive unify_flags : Set := NO_UNIFY | ALLOW_UNIFY | FORCE_UNIFY.

Definition unify_flags_eqb (a b : unify_flags) : bool :=
  match a, b with
  | NO_UNIFY, NO_UNIFY | ALLOW_UNIFY, ALLOW_UNIFY | FORCE_UNIFY, FORCE_UNIFY => true
  | _, _ => false
  end.

(** [struct delta_ref]: the flusher only reads its [delta] field. *)
Record delta_ref : Set := mk_delta_ref { delta : Z }.

(** A read/write semaphore: [sb->delta_lock] and [super->s_umount]. *)
Record rwsem : Set := mk_rwsem { writer : bool; readers : nat }.

Definition rwsem_free : rwsem := mk_rwsem false 0.

(* ------------------------------------------------------------------ *)
(** ** Atomic accesses *)

(** One access of a thread to the shared state.  Calls into the storage
    layer are taken as one access each. *)
Inductive op : Type :=
| TestBit (nr : nat)
| TestAndSetBit (nr : nat)
| ClearBit (nr : nat)
| TestAndClearBit (nr : nat)
| ReadStagingDelta
| ReadCommittedDelta
| ReadSFlags
| StoreNrPages (v : Z)
| CallDeltaGet
| CallDeltaPut (r : delta_ref)
| CallDeltaTransition
| CallFlushDelta
| CallSyncInodesSb
| DownWriteDeltaLock
| UpWriteDeltaLock
| DownReadSUmount
| UpReadSUmount
| FatalSignalPending
| Schedule
| WakeUpAll
| WarnOn (c : bool)
| Assert (c : bool).

(** What an access hands back to the thread. *)
Definition ret (o : op) : Type :=
  match o with
  | TestBit _ | TestAndSetBit _ | TestAndClearBit _ | FatalSignalPending => bool
  | ReadStagingDelta | ReadCommittedDelta | ReadSFlags | CallFlushDelta => Z
  | CallDeltaGet => delta_ref
  | _ => unit
  end.

(* ------------------------------------------------------------------ *)
(** ** Programs *)

(** A C function body: the accesses it makes, each continued by what it does
    with the value read.  [Sleep] is a wait loop that has used up the number
    of wake-ups it was given and is still waiting. *)
Inductive prog (A : Type) : Type :=
| Ret (a : A)
| Do (o : op) (k : ret o -> prog A)
| Sleep.

Arguments Ret {A} a.
Arguments Do {A} o k.
Arguments Sleep {A}.

Fixpoint bind {A B : Type} (p : prog A) (f : A -> prog B) : prog B :=
  match p with
  | Ret a => f a
  | Do o k => Do o (fun v => bind (k v) f)
  | Sleep => Sleep
  end.

Definition call (o : op) : prog (ret o) := Do o (fun v => Ret v).

(* ------------------------------------------------------------------ *)
(** ** The shared state *)

Section Machine.

(** State of the storage layer that the flusher never looks at (reference
    counts, dirty buffers, the current delta pointer ...). *)
Variable T : Type.

(** [struct sb], as far as the flusher goes. *)
Record sb : Type := mk_sb {
  staging_delta : Z;          (* unsigned staging_delta *)
  committed_delta : Z;        (* unsigned committed_delta *)
  backend_state : Z;          (* unsigned long backend_state, a bit set *)
  delta_lock : rwsem;         (* struct rw_semaphore delta_lock *)
  storage : T
}.

(** The superblock with what surrounds it: the VFS [struct super_block], the
    caller's [*nr_pages], and which threads have a fatal signal pending. *)
Record machine : Type := mk_machine {
  the_sb : sb;
  s_umount : rwsem;           (* vfs_sb(sb)->s_umount *)
  s_flags : Z;                (* super->s_flags *)
  nr_pages : Z;               (* *nr_pages *)
  killed : nat -> bool        (* fatal_signal_pending(), per thread *)
}.

Definition set_sb (s : sb) (m : machine) : machine :=
  mk_machine s (s_umount m) (s_flags m) (nr_pages m) (killed m).

Definition set_backend_state (v : Z) (m : machine) : machine :=
  let s := the_sb m in
  set_sb (mk_sb (staging_delta s) (committed_delta s) v (delta_lock s)
                (storage s)) m.

Definition set_delta_lock (l : rwsem) (m : machine) : machine :=
  let s := the_sb m in
  set_sb (mk_sb (staging_delta s) (committed_delta s) (backend_state s) l
                (storage s)) m.

Definition set_s_umount (l : rwsem) (m : machine) : machine :=
  mk_machine (the_sb m) l (s_flags m) (nr_pages m) (killed m).

Definition set_nr_pages (v : Z) (m : machine) : machine :=
  mk_machine (the_sb m) (s_umount m) (s_flags m) v (killed m).

(** Bit [nr] of [sb->backend_state]. *)
Definition bit_is_set (nr : nat) (m : machine) : bool :=
  Z.testbit (backend_state (the_sb m)) (Z.of_nat nr).

(** The functions and constants of the storage layer that the flusher calls
    but does not define; each function takes [struct sb *sb]. *)
Class Collaborators : Type := {
  TUX3_COMMIT_RUNNING_BIT : nat;
  TUX3_COMMIT_PENDING_BIT : nat;
  delta_get : sb -> delta_ref * sb;
  delta_put : delta_ref -> sb -> sb;
  delta_transition : sb -> sb;
  flush_delta : sb -> Z * sb;
  sync_inodes_sb : sb -> sb
}.

Context {C : Collaborators}.

(** Outcome of one access. *)
Inductive step_result (X : Type) : Type :=
| Ok (v : X) (m : machine)
| Block          (* the thread cannot proceed: a semaphore is taken *)
| Crash.         (* an assertion failed *)

Arguments Ok {X} v m.
Arguments Block {X}.
Arguments Crash {X}.

(** Effect of one access by thread [tid]. *)
Definition exec (tid : nat) (o : op) (m : machine) : step_result (ret o) :=
  match o as o0 return step_result (ret o0) with
  | TestBit nr => Ok (bit_is_set nr m) m
  | TestAndSetBit nr =>
      Ok (bit_is_set nr m)
         (set_backend_state
            (Z.setbit (backend_state (the_sb m)) (Z.of_nat nr)) m)
  | ClearBit nr =>
      Ok tt (set_backend_state
               (Z.clearbit (backend_state (the_sb m)) (Z.of_nat nr)) m)
  | TestAndClearBit nr =>
      Ok (bit_is_set nr m)
         (set_backend_state
            (Z.clearbit (backend_state (the_sb m)) (Z.of_nat nr)) m)
  | ReadStagingDelta => Ok (staging_delta (the_sb m)) m
  | ReadCommittedDelta => Ok (committed_delta (the_sb m)) m
  | ReadSFlags => Ok (s_flags m) m
  | StoreNrPages v => Ok tt (set_nr_pages v m)
  | CallDeltaGet => Ok (fst (delta_get (the_sb m)))
                       (set_sb (snd (delta_get (the_sb m))) m)
  | CallDeltaPut r => Ok tt (set_sb (delta_put r (the_sb m)) m)
  | CallDeltaTransition => Ok tt (set_sb (delta_transition (the_sb m)) m)
  | CallFlushDelta => Ok (fst (flush_delta (the_sb m)))
                         (set_sb (snd (flush_delta (the_sb m))) m)
  | CallSyncInodesSb => Ok tt (set_sb (sync_inodes_sb (the_sb m)) m)
  | DownWriteDeltaLock =>
      if writer (delta_lock (the_sb m))
         || negb (readers (delta_lock (the_sb m)) =? 0)%nat
      then Block
      else Ok tt (set_delta_lock (mk_rwsem true 0) m)
  | UpWriteDeltaLock =>
      Ok tt (set_delta_lock
               (mk_rwsem false (readers (delta_lock (the_sb m)))) m)
  | DownReadSUmount =>
      if writer (s_umount m) then Block
      else Ok tt (set_s_umount (mk_rwsem false (S (readers (s_umount m)))) m)
  | UpReadSUmount =>
      Ok tt (set_s_umount (mk_rwsem (writer (s_umount m))
                                    (pred (readers (s_umount m)))) m)
  | FatalSignalPending => Ok (killed m tid) m
  | Schedule => Ok tt m
  | WakeUpAll => Ok tt m
  | WarnOn _ => Ok tt m
  | Assert c => if c then Ok tt m else Crash
  end.

End Machine.

Arguments mk_sb {T}.
Arguments staging_delta {T} s.
Arguments committed_delta {T} s.
Arguments backend_state {T} s.
Arguments delta_lock {T} s.
Arguments storage {T} s.
Arguments mk_machine {T}.
Arguments the_sb {T} m.
Arguments s_umount {T} m.
Arguments s_flags {T} m.
Arguments nr_pages {T} m.
Arguments killed {T} m.
Arguments set_sb {T} s m.
Arguments set_backend_state {T} v m.
Arguments set_delta_lock {T} l m.
Arguments set_s_umount {T} l m.
Arguments set_nr_pages {T} v m.
Arguments bit_is_set {T} nr m.
Arguments TUX3_COMMIT_RUNNING_BIT {T _}.
Arguments TUX3_COMMIT_PENDING_BIT {T _}.
Arguments delta_get {T _} s.
Arguments delta_put {T _} r s.
Arguments delta_transition {T _} s.
Arguments flush_delta {T _} s.
Arguments sync_inodes_sb {T _} s.
Arguments Ok {T X} v m.
Arguments Block {T X}.
Arguments Crash {T X}.
Arguments exec {T C} tid o m.

Declare Scope prog_scope.
Delimit Scope prog_scope with prog.
Notation "x <- p ;; q" := (bind p (fun x => q))
  (at level 61, p at next level, right associativity) : prog_scope.
Notation "p ;; q" := (bind p (fun _ => q))
  (at level 61, right associativity) : prog_scope.
Local Open Scope prog_scope.

(* ------------------------------------------------------------------ *)
(** ** The kernel's wait macros *)

(** [__wait_event_killable(wq, condition)]: prepare to wait, test the
    condition, give up with [-ERESTARTSYS] on a fatal signal, sleep
    otherwise.  [n] bounds the number of times the loop is entered. *)
Fixpoint __wait_event_killable (n : nat) (condition : prog Z) : prog Z :=
  match n with
  | O => Sleep
  | S n' =>
      c <- condition ;;
      if c =? 0 then
        sig <- call FatalSignalPending ;;
        if sig then Ret (- ERESTARTSYS)
        else call Schedule ;; __wait_event_killable n' condition
      else Ret 0
  end.

(** [wait_event_killable(wq, condition)]. *)
Definition wait_event_killable (n : nat) (condition : prog Z) : prog Z :=
  c <- condition ;;
  if c =? 0 then __wait_event_killable n condition else Ret 0.

(** [__wait_event(wq, condition)]: the same loop with no way out but the
    condition. *)
Fixpoint __wait_event (n : nat) (condition : prog Z) : prog unit :=
  match n with
  | O => Sleep
  | S n' =>
      c <- condition ;;
      if c =? 0 then call Schedule ;; __wait_event n' condition
      else Ret tt
  end.

(** [wait_event(wq, condition)]. *)
Definition wait_event (n : nat) (condition : prog Z) : prog unit :=
  c <- condition ;;
  if c =? 0 then __wait_event n condition else Ret tt.

(* ------------------------------------------------------------------ *)
(** ** TUX3_FLUSHER == TUX3_FLUSHER_SYNC *)

Module FlusherSync.
Section Flusher.
Context {T : Type} {C : Collaborators T}.

Definition schedule_flush_delta : prog unit :=
  call WakeUpAll.

Definition flush_pending_delta : prog Z :=
  pending <- call (TestBit TUX3_COMMIT_PENDING_BIT) ;;
  if negb pending then Ret 0
  else
    won <- call (TestAndClearBit TUX3_COMMIT_PENDING_BIT) ;;
    if won then call CallFlushDelta else Ret 0.

Definition try_delta_transition : prog unit :=
  old <- call (TestAndSetBit TUX3_COMMIT_RUNNING_BIT) ;;
  if negb old then call CallDeltaTransition else Ret tt.

Definition try_delta_transition_until_delta (d : Z) : prog Z :=
  s <- call ReadStagingDelta ;;
  if delta_after_eq s d then Ret 1
  else
    old <- call (TestAndSetBit TUX3_COMMIT_RUNNING_BIT) ;;
    if negb old then
      s1 <- call ReadStagingDelta ;;
      if delta_after_eq s1 d then
        call (ClearBit TUX3_COMMIT_RUNNING_BIT) ;;
        Ret 1
      else
        call CallDeltaTransition ;;
        s2 <- call ReadStagingDelta ;;
        Ret (Z.b2z (delta_after_eq s2 d))
    else
      s2 <- call ReadStagingDelta ;;
      Ret (Z.b2z (delta_after_eq s2 d)).

Definition wait_for_transition (n : nat) (d : Z) : prog Z :=
  wait_event_killable n (try_delta_transition_until_delta d).

Definition try_flush_pending_until_delta (d : Z) : prog Z :=
  c <- call ReadCommittedDelta ;;
  (if negb (delta_after_eq c d) then flush_pending_delta ;; Ret tt
   else Ret tt) ;;
  c1 <- call ReadCommittedDelta ;;
  Ret (Z.b2z (delta_after_eq c1 d)).

Definition wait_for_commit (n : nat) (d : Z) : prog Z :=
  wait_event_killable n (try_flush_pending_until_delta d).

(** [unify_flag] is stored into the reference under UNIFY_DEBUG only. *)
Definition sync_current_delta (n : nat) (unify_flag : unify_flags) : prog Z :=
  call DownWriteDeltaLock ;;
  r <- call CallDeltaGet ;;
  let d := delta r in
  call (CallDeltaPut r) ;;
  err <- wait_for_transition n d ;;
  if negb (err =? 0) then Ret err
  else
    s <- call ReadStagingDelta ;;
    call (Assert (delta_after_eq s d)) ;;
    err1 <- wait_for_commit n d ;;
    (if negb (err1 =? 0) then Ret tt
     else c <- call ReadCommittedDelta ;;
          call (Assert (delta_after_eq c d))) ;;
    call UpWriteDeltaLock ;;
    Ret err1.

End Flusher.
End FlusherSync.

(* ------------------------------------------------------------------ *)
(** ** TUX3_FLUSHER == TUX3_FLUSHER_ASYNC *)

Module FlusherAsync.
Section Flusher.
Context {T : Type} {C : Collaborators T}.

(** The body is compiled out. *)
Definition try_delta_transition : prog unit :=
  Ret tt.

Definition try_delta_transition_until_delta (d : Z) : prog Z :=
  s <- call ReadStagingDelta ;;
  if delta_after_eq s d then Ret 1
  else
    old <- call (TestAndSetBit TUX3_COMMIT_RUNNING_BIT) ;;
    if negb old then
      s1 <- call ReadStagingDelta ;;
      if delta_after_eq s1 d then
        call (ClearBit TUX3_COMMIT_RUNNING_BIT) ;;
        Ret 1
      else
        call CallDeltaTransition ;;
        s2 <- call ReadStagingDelta ;;
        Ret (Z.b2z (delta_after_eq s2 d))
    else
      s2 <- call ReadStagingDelta ;;
      Ret (Z.b2z (delta_after_eq s2 d)).

Definition wait_for_transition (n : nat) (d : Z) : prog Z :=
  wait_event_killable n (try_delta_transition_until_delta d).

(** The wait at "Wait for last referencer of delta was gone". *)
Definition wait_for_pending (n : nat) : prog unit :=
  wait_event n (b <- call (TestBit TUX3_COMMIT_PENDING_BIT) ;; Ret (Z.b2z b)).

Definition tux3_writeback (n : nat) : prog Z :=
  flags <- call ReadSFlags ;;
  if Z.land flags MS_ACTIVE =? 0 then Ret 0
  else
    r <- call CallDeltaGet ;;
    let d := delta r in
    call (CallDeltaPut r) ;;
    err <- wait_for_transition n d ;;
    if negb (err =? 0) then Ret err
    else
      s <- call ReadStagingDelta ;;
      call (Assert (delta_after_eq s d)) ;;
      wait_for_pending n ;;
      pending <- call (TestBit TUX3_COMMIT_PENDING_BIT) ;;
      (if pending then
         call (ClearBit TUX3_COMMIT_PENDING_BIT) ;;
         call CallFlushDelta ;;
         Ret tt
       else Ret tt) ;;
      call (StoreNrPages 0) ;;
      Ret 1.

Definition sync_current_delta (unify_flag : unify_flags) : prog Z :=
  call (WarnOn (unify_flags_eqb unify_flag FORCE_UNIFY)) ;;
  call DownReadSUmount ;;
  call CallSyncInodesSb ;;
  call UpReadSUmount ;;
  Ret 0.

Definition schedule_flush_delta : prog unit :=
  call WakeUpAll.

End Flusher.
End FlusherAsync.

(* ------------------------------------------------------------------ *)
(** ** Running one thread among others *)

Section Run.
Context {T : Type} {C : Collaborators T}.

(** What the rest of the system does to the shared state just before the
    thread's next access, given how many accesses the thread has made. *)
Definition environment : Type := nat -> machine T -> machine T.

(** No other thread runs. *)
Definition alone : environment := fun _ m => m.

(** How a call ends, with the state it leaves and the accesses it made, in
    order: it returned; it is held up at a semaphore; it is still asleep in
    a wait loop after all the wake-ups it was given; it failed an
    assertion. *)
Inductive outcome (A : Type) : Type :=
| Returned (a : A) (m : machine T) (tr : list op)
| Blocked (m : machine T) (tr : list op)
| Asleep (m : machine T) (tr : list op)
| Crashed (m : machine T) (tr : list op).

Arguments Returned {A} a m tr.
Arguments Blocked {A} m tr.
Arguments Asleep {A} m tr.
Arguments Crashed {A} m tr.

(** Thread [tid] runs [p] from state [m], having made the accesses [tr]. *)
Fixpoint run {A : Type} (env : environment) (tid : nat)
    (p : prog A) (m : machine T) (tr : list op) : outcome A :=
  match p with
  | Ret a => Returned a m tr
  | Sleep => Asleep m tr
  | Do o k =>
      let m1 := env (length tr) m in
      match exec tid o m1 with
      | Ok v m2 => run env tid (k v) m2 (tr ++ [o])
      | Block => Blocked m1 tr
      | Crash => Crashed m1 tr
      end
  end.

End Run.

Arguments environment T : clear implicits.
Arguments outcome T A : clear implicits.
Arguments Returned {T A} a m tr.
Arguments Blocked {T A} m tr.
Arguments Asleep {T A} m tr.
Arguments Crashed {T A} m tr.

(* ------------------------------------------------------------------ *)
(** ** Several threads under a schedule *)

Section Pool.
Context {T : Type} {C : Collaborators T}.

(** The threads with what each has left to do, the shared state, and the
    accesses made so far, each with the thread that made it. *)
Record config (A : Type) : Type := mk_config {
  threads : list (prog A);
  shared : machine T;
  history : list (nat * op)
}.

Arguments mk_config {A}.
Arguments threads {A} c.
Arguments shared {A} c.
Arguments history {A} c.

Fixpoint replace_thread {A : Type} (tid : nat) (p : prog A)
    (ts : list (prog A)) : list (prog A) :=
  match ts, tid with
  | [], _ => []
  | _ :: ts', O => p :: ts'
  | t :: ts', S tid' => t :: replace_thread tid' p ts'
  end.

(** Thread [tid] makes its next access; nothing happens if it has returned,
    sleeps for good, is blocked or has crashed. *)
Definition thread_step {A : Type} (tid : nat) (c : config A) : config A :=
  match nth_error (threads c) tid with
  | Some (Do o k) =>
      match exec tid o (shared c) with
      | Ok v m' =>
          mk_config (replace_thread tid (k v) (threads c)) m'
                    (history c ++ [(tid, o)])
      | _ => c
      end
  | _ => c
  end.

Fixpoint run_schedule {A : Type} (sched : list nat) (c : config A) : config A :=
  match sched with
  | [] => c
  | tid :: sched' => run_schedule sched' (thread_step tid c)
  end.

(** Number of calls of [flush_delta] in a history. *)
Fixpoint flush_calls (h : list (nat * op)) : nat :=
  match h with
  | [] => 0
  | (_, CallFlushDelta) :: h' => S (flush_calls h')
  | _ :: h' => flush_calls h'
  end.

(** A thread that has returned. *)
Definition has_returned {A : Type} (p : prog A) : bool :=
  match p with Ret _ => true | _ => false end.

End Pool.

Arguments config T A : clear implicits.
Arguments mk_config {T A}.
Arguments threads {T A} c.
Arguments shared {T A} c.
Arguments history {T A} c.

(* ------------------------------------------------------------------ *)
(** ** Auxiliary definitions for the statements *)

Section Aux.
Context {T : Type} {C : Collaborators T}.

(** Sequencing of outcomes: only a call that returned is continued. *)
Definition outcome_bind {A B : Type} (o : outcome T A)
    (f : A -> machine T -> list op -> outcome T B) : outcome T B :=
  match o with
  | Returned a m tr => f a m tr
  | Blocked m tr => Blocked m tr
  | Asleep m tr => Asleep m tr
  | Crashed m tr => Crashed m tr
  end.

(** The environment never takes back that [staging_delta] has reached [d]. *)
Definition keeps_staged (env : environment T) (d : Z) : Prop :=
  forall i m,
    delta_after_eq (staging_delta (the_sb m)) d = true ->
    delta_after_eq (staging_delta (the_sb (env i m))) d = true.

(** The environment never takes back that [committed_delta] has reached [d]. *)
Definition keeps_committed (env : environment T) (d : Z) : Prop :=
  forall i m,
    delta_after_eq (committed_delta (the_sb m)) d = true ->
    delta_after_eq (committed_delta (the_sb (env i m))) d = true.

(** Nobody marks a delta pending. *)
Definition keeps_not_pending (env : environment T) : Prop :=
  forall i m,
    bit_is_set TUX3_COMMIT_PENDING_BIT m = false ->
    bit_is_set TUX3_COMMIT_PENDING_BIT (env i m) = false.

(** A fatal signal sent to thread [tid] stays pending. *)
Definition keeps_killed (env : environment T) (tid : nat) : Prop :=
  forall i m, killed m tid = true -> killed (env i m) tid = true.

End Aux.

(** A thread that has won the election and is about to call
    [flush_delta]. *)
Definition flush_token {A : Type} (p : prog A) : nat :=
  match p with
  | Do CallFlushDelta _ => 1
  | _ => 0
  end.

Definition tokens {A : Type} (ts : list (prog A)) : nat :=
  list_sum (map flush_token ts).

(** 1 if a delta is marked pending, 0 if not. *)
Definition pending_count {T : Type} {C : Collaborators T} (m : machine T) : nat :=
  if bit_is_set TUX3_COMMIT_PENDING_BIT m then 1 else 0.

(** [flush_pending_delta] once its first test found the bit set. *)
Definition flush_pending_delta_elect {T : Type} {C : Collaborators T} : prog Z :=
  (won <- call (TestAndClearBit TUX3_COMMIT_PENDING_BIT) ;;
   if won then call CallFlushDelta else Ret 0)%prog.

(** The places a thread can be at in [flush_pending_delta]. *)
Definition in_flush_pending_delta {T : Type} {C : Collaborators T}
    (p : prog Z) : Prop :=
  p = FlusherSync.flush_pending_delta \/
  p = flush_pending_delta_elect \/
  p = call CallFlushDelta \/
  exists err, p = Ret err.

(** [flush_delta] leaves [TUX3_COMMIT_PENDING_BIT] as it finds it. *)
Definition flush_keeps_pending_bit {T : Type} {C : Collaborators T} : Prop :=
  forall s : sb T,
    Z.testbit (backend_state (snd (flush_delta s)))
              (Z.of_nat TUX3_COMMIT_PENDING_BIT) =
    Z.testbit (backend_state s) (Z.of_nat TUX3_COMMIT_PENDING_BIT).

(** What holds of a pool of threads in [flush_pending_delta] that started
    with [b0] deltas pending. *)
Definition election_invariant {T : Type} {C : Collaborators T}
    (b0 : nat) (c : config T Z) : Prop :=
  Forall in_flush_pending_delta (threads c) /\
  (flush_calls (history c) + pending_count (shared c) + tokens (threads c)
   = b0)%nat /\
  (existsb has_returned (threads c) = true -> pending_count (shared c) = 0%nat).

(** Accesses that neither call [delta_transition] or [flush_delta] nor set
    or clear a bit of [backend_state]. *)
Definition quiet (o : op) : bool :=
  match o with
  | CallDeltaTransition | CallFlushDelta
  | TestAndSetBit _ | ClearBit _ | TestAndClearBit _ => false
  | _ => true
  end.

(** [sb] with [delta_lock] taken for writing. *)
Definition write_locked {T : Type} (s : sb T) : sb T :=
  mk_sb (staging_delta s) (committed_delta s) (backend_state s)
        (mk_rwsem true 0) (storage s).

(** The same outcome with every [WARN_ON] in the trace having fired. *)
Definition warned (o : op) : op :=
  match o with WarnOn _ => WarnOn true | _ => o end.

Definition with_warning {T A : Type} (out : outcome T A) : outcome T A :=
  match out with
  | Returned a m tr => Returned a m (map warned tr)
  | Blocked m tr => Blocked m (map warned tr)
  | Asleep m tr => Asleep m (map warned tr)
  | Crashed m tr => Crashed m (map warned tr)
  end.

Definition has_crashed {T A : Type} (out : outcome T A) : bool :=
  match out with Crashed _ _ => true | _ => false end.

(** What the design asks of [try_delta_transition_until_delta], for a
    function [f] and a call of it from [m] with target [d]: the call
    returns; it calls [delta_transition] exactly when its first test of
    [staging_delta] fails, it wins [TUX3_COMMIT_RUNNING_BIT] and its second
    test fails too; and a winner whose second test succeeds clears the bit
    and returns 1 having done nothing else. *)
Definition rechecks_after_winning {T : Type} {C : Collaborators T}
    (f : Z -> prog Z) : Prop :=
  forall (env : environment T) (tid : nat) (d : Z) (m : machine T),
    let m1 := env 0%nat m in
    let m2 := env 1%nat m1 in
    let m3 := env 2%nat
                (set_backend_state
                   (Z.setbit (backend_state (the_sb m2))
                             (Z.of_nat TUX3_COMMIT_RUNNING_BIT)) m2) in
    exists c m' tr',
      run env tid (f d) m [] = Returned c m' tr' /\
      (In CallDeltaTransition tr' <->
         delta_after_eq (staging_delta (the_sb m1)) d = false /\
         bit_is_set TUX3_COMMIT_RUNNING_BIT m2 = false /\
         delta_after_eq (staging_delta (the_sb m3)) d = false) /\
      (delta_after_eq (staging_delta (the_sb m1)) d = false ->
       bit_is_set TUX3_COMMIT_RUNNING_BIT m2 = false ->
       delta_after_eq (staging_delta (the_sb m3)) d = true ->
       c = 1 /\
       bit_is_set TUX3_COMMIT_RUNNING_BIT m' = false /\
       tr' = [ReadStagingDelta; TestAndSetBit TUX3_COMMIT_RUNNING_BIT;
              ReadStagingDelta; ClearBit TUX3_COMMIT_RUNNING_BIT]).

(* ------------------------------------------------------------------ *)
(** ** A storage layer to run the flusher on *)

Module Demo.

(** [storage] is the number of the delta that is open.  A transition stages
    the open delta, opens the next one and, no reference being left, marks
    the staged delta pending. *)
Definition demo_transition (s : sb Z) : sb Z :=
  mk_sb (storage s) (committed_delta s) (Z.setbit (backend_state s) 1)
        (delta_lock s) (to_unsigned (storage s + 1)).

(** A flush commits the staged delta, ends the transition and returns
    [err]. *)
Definition demo_flush (err : Z) (s : sb Z) : Z * sb Z :=
  (err, mk_sb (staging_delta s) (staging_delta s)
              (Z.clearbit (backend_state s) 0) (delta_lock s) (storage s)).

Definition layer (err : Z) : Collaborators Z := {|
  TUX3_COMMIT_RUNNING_BIT := 0;
  TUX3_COMMIT_PENDING_BIT := 1;
  delta_get := fun s => (mk_delta_ref (storage s), s);
  delta_put := fun _ s => s;
  delta_transition := demo_transition;
  flush_delta := demo_flush err;
  sync_inodes_sb := fun s => s
|}.

(** A storage layer whose flush fails with [err] before anything is
    written. *)
Definition failing_layer (err : Z) : Collaborators Z := {|
  TUX3_COMMIT_RUNNING_BIT := 0;
  TUX3_COMMIT_PENDING_BIT := 1;
  delta_get := fun s => (mk_delta_ref (storage s), s);
  delta_put := fun _ s => s;
  delta_transition := demo_transition;
  flush_delta := fun s => (err, s);
  sync_inodes_sb := fun s => s
|}.

(** [-EIO]. *)
Definition EIO : Z := 5.

(** A mounted volume: [staged] and [committed] deltas, the flag bits, the
    open delta, and the threads with a fatal signal pending. *)
Definition volume (staged committed bits open : Z) (sig : nat -> bool)
  : machine Z :=
  mk_machine (mk_sb staged committed bits rwsem_free open)
             rwsem_free MS_ACTIVE 7 sig.

(** The same volume before replay has finished. *)
Definition replaying (staged committed bits open : Z) : machine Z :=
  mk_machine (mk_sb staged committed bits rwsem_free open)
             rwsem_free 0 7 (fun _ => false).

Definition nobody : nat -> bool := fun _ => false.
Definition everybody : nat -> bool := fun _ => true.

(** Some other thread stages the open delta while this thread is between
    its first and its second access. *)
Definition overtaken : environment Z :=
  fun i m => if (i =? 1)%nat then set_sb (demo_transition (the_sb m)) m else m.

End Demo.

(* ------------------------------------------------------------------ *)
(** ** What a program can do *)

(** The accesses an outcome records. *)
Definition trace_of {T A : Type} (out : outcome T A) : list op :=
  match out with
  | Returned _ _ tr | Blocked _ tr | Asleep _ tr | Crashed _ tr => tr
  end.

(** Every access [p] can make, whatever it reads, satisfies [P]. *)
Fixpoint only_ops {A : Type} (P : op -> Prop) (p : prog A) : Prop :=
  match p with
  | Ret _ => True
  | Sleep => True
  | Do o k => P o /\ forall v, only_ops P (k v)
  end.

(** The accesses of the transition side: [staging_delta],
    [TUX3_COMMIT_RUNNING_BIT], [delta_transition], and waiting. *)
Definition transition_op {T : Type} {C : Collaborators T} (o : op) : Prop :=
  match o with
  | ReadStagingDelta | CallDeltaTransition | FatalSignalPending | Schedule =>
      True
  | TestAndSetBit nr | ClearBit nr => nr = TUX3_COMMIT_RUNNING_BIT
  | _ => False
  end.

(** The accesses of the commit side: [committed_delta],
    [TUX3_COMMIT_PENDING_BIT], [flush_delta], and waiting. *)
Definition commit_op {T : Type} {C : Collaborators T} (o : op) : Prop :=
  match o with
  | ReadCommittedDelta | CallFlushDelta | FatalSignalPending | Schedule => True
  | TestBit nr | TestAndClearBit nr => nr = TUX3_COMMIT_PENDING_BIT
  | _ => False
  end.

(** Number of calls of [flush_delta] and of [delta_transition] in the
    accesses of one thread. *)
Definition is_flush (o : op) : bool :=
  match o with CallFlushDelta => true | _ => false end.

Definition is_transition (o : op) : bool :=
  match o with CallDeltaTransition => true | _ => false end.

Definition count_ops (f : op -> bool) (tr : list op) : nat :=
  length (filter f tr).

(** On every path [p] makes at most [n] accesses that [f] picks. *)
Fixpoint at_most {A : Type} (f : op -> bool) (n : nat) (p : prog A) : Prop :=
  match p with
  | Ret _ => True
  | Sleep => True
  | Do o k =>
      if f o then
        match n with
        | O => False
        | S n' => forall v, at_most f n' (k v)
        end
      else forall v, at_most f n (k v)
  end.

(* ------------------------------------------------------------------ *)
(** ** Holding delta_lock *)

Definition is_lock_op (o : op) : bool :=
  match o with
  | DownWriteDeltaLock | UpWriteDeltaLock => true
  | _ => false
  end.

(** Whether a thread holds [delta_lock] after access [o], given whether it
    held it before. *)
Definition holds_after (o : op) (held : bool) : bool :=
  match o with
  | DownWriteDeltaLock => true
  | UpWriteDeltaLock => false
  | _ => held
  end.

(** [p] takes [delta_lock] only when it does not hold it and releases it
    only when it does. *)
Fixpoint lock_discipline {A : Type} (held : bool) (p : prog A) : Prop :=
  match p with
  | Ret _ => True
  | Sleep => True
  | Do o k =>
      match o with
      | DownWriteDeltaLock => held = false
      | UpWriteDeltaLock => held = true
      | _ => True
      end /\
      forall v, lock_discipline (holds_after o held) (k v)
  end.

(** Reading a history: who holds [delta_lock], if anybody; [None] once a
    thread has taken the lock while it was held or released it without
    holding it. *)
Definition lock_step (st : option (option nat)) (e : nat * op)
  : option (option nat) :=
  match st with
  | None => None
  | Some owner =>
      match snd e, owner with
      | DownWriteDeltaLock, None => Some (Some (fst e))
      | DownWriteDeltaLock, Some _ => None
      | UpWriteDeltaLock, Some t =>
          if Nat.eqb t (fst e) then Some None else None
      | UpWriteDeltaLock, None => None
      | _, _ => Some owner
      end
  end.

Definition lock_owner (h : list (nat * op)) : option (option nat) :=
  fold_left lock_step h (Some None).

Definition owner_is (i : nat) (owner : option nat) : bool :=
  match owner with
  | Some t => Nat.eqb t i
  | None => false
  end.

(** The storage layer leaves [delta_lock] alone. *)
Definition keeps_delta_lock {T : Type} {C : Collaborators T} : Prop :=
  (forall s : sb T, delta_lock (snd (delta_get s)) = delta_lock s) /\
  (forall r (s : sb T), delta_lock (delta_put r s) = delta_lock s) /\
  (forall s : sb T, delta_lock (delta_transition s) = delta_lock s) /\
  (forall s : sb T, delta_lock (snd (flush_delta s)) = delta_lock s) /\
  (forall s : sb T, delta_lock (sync_inodes_sb s) = delta_lock s).

(** What holds of a pool of threads that keep the lock discipline. *)
Definition serial_invariant {T A : Type} (c : config T A) : Prop :=
  exists owner,
    lock_owner (history c) = Some owner /\
    delta_lock (the_sb (shared c)) =
      mk_rwsem (match owner with Some _ => true | None => false end) 0 /\
    forall i p, nth_error (threads c) i = Some p ->
                lock_discipline (owner_is i owner) p.

(* ------------------------------------------------------------------ *)
(** ** Holding TUX3_COMMIT_RUNNING_BIT *)

(** Number of calls of [delta_transition] in a history. *)
Fixpoint transition_calls (h : list (nat * op)) : nat :=
  match h with
  | [] => 0
  | (_, CallDeltaTransition) :: h' => S (transition_calls h')
  | _ :: h' => transition_calls h'
  end.

(** 1 if a transition is marked running, 0 if not. *)
Definition running_count {T : Type} {C : Collaborators T} (m : machine T) : nat :=
  if bit_is_set TUX3_COMMIT_RUNNING_BIT m then 1 else 0.

(** [delta_transition] leaves [TUX3_COMMIT_RUNNING_BIT] as it finds it. *)
Definition transition_keeps_running_bit {T : Type} {C : Collaborators T}
  : Prop :=
  forall s : sb T,
    Z.testbit (backend_state (delta_transition s))
              (Z.of_nat TUX3_COMMIT_RUNNING_BIT) =
    Z.testbit (backend_state s) (Z.of_nat TUX3_COMMIT_RUNNING_BIT).

(** What a thread that holds the bit or not ([held]) may do next: only one
    that does not hold it tries to take it, only one that holds it clears
    it or calls [delta_transition]. *)
Definition running_cond (o : op) (held : bool) : Prop :=
  match o with
  | TestAndSetBit _ => held = false
  | ClearBit _ | CallDeltaTransition => held = true
  | _ => True
  end.

(** Whether the thread holds the bit after access [o] that handed back [v]:
    it does after a [test_and_set_bit] that found the bit clear, and no
    longer after it cleared the bit or made the transition (which leaves
    the bit to whoever commits the delta). *)
Definition running_after (o : op) : ret o -> bool -> bool :=
  match o as o0 return ret o0 -> bool -> bool with
  | TestAndSetBit _ => fun old _ => negb old
  | ClearBit _ => fun _ _ => false
  | CallDeltaTransition => fun _ _ => false
  | _ => fun _ held => held
  end.

(** [p] stays on the transition side, keeps to [running_cond], and returns
    (or sleeps for good) only when it does not hold the bit. *)
Fixpoint running_discipline {T : Type} {C : Collaborators T} {A : Type}
    (held : bool) (p : prog A) : Prop :=
  match p with
  | Ret _ => held = false
  | Sleep => held = false
  | Do o k =>
      transition_op o /\ running_cond o held /\
      forall v, running_discipline (running_after o v held) (k v)
  end.

(** What holds of a pool of threads that keep the discipline, [b0] telling
    whether the bit was set at the start. *)
Definition driver_invariant {T : Type} {C : Collaborators T} {A : Type}
    (b0 : nat) (c : config T A) : Prop :=
  exists owner,
    (forall i p, nth_error (threads c) i = Some p ->
                 running_discipline (owner_is i owner) p) /\
    (forall t, owner = Some t -> nth_error (threads c) t <> None) /\
    running_count (shared c) =
      (b0 + (match owner with Some _ => 1 | None => 0 end)
       + transition_calls (history c))%nat.

(** The places a thread can be at in [try_delta_transition]. *)
Definition in_try_delta_transition {T : Type} {C : Collaborators T}
    (p : prog unit) : Prop :=
  p = FlusherSync.try_delta_transition \/
  p = call CallDeltaTransition \/
  p = Ret tt.

(** Nobody else commits delta [d]. *)
Definition keeps_uncommitted {T : Type} (env : environment T) (d : Z) : Prop :=
  forall i m,
    delta_after_eq (committed_delta (the_sb m)) d = false ->
    delta_after_eq (committed_delta (the_sb (env i m))) d = false.

(** Delta [d] is not committed and no delta is marked pending. *)
Definition nothing_to_flush {T : Type} {C : Collaborators T}
    (d : Z) (m : machine T) : Prop :=
  bit_is_set TUX3_COMMIT_PENDING_BIT m = false /\
  delta_after_eq (committed_delta (the_sb m)) d = false.

(** A wait that is still asleep, or was killed. *)
Definition asleep_or_killed {T : Type} (tid : nat) (out : outcome T Z) : Prop :=
  match out with
  | Asleep _ _ => True
  | Returned r m _ => r = - ERESTARTSYS /\ killed m tid = true
  | _ => False
  end.

(* ------------------------------------------------------------------ *)
(** ** The stages of a sync *)

(** The state once [delta_lock] is taken and the reference to the current
    delta was taken and dropped, with that reference. *)
Definition reference_taken {T : Type} {C : Collaborators T} (m : machine T)
  : delta_ref * machine T :=
  let m0 := set_delta_lock (mk_rwsem true 0) m in
  let g := delta_get (the_sb m0) in
  (fst g, set_sb (delta_put (fst g) (snd g)) m0).

(** The state once this thread took [TUX3_COMMIT_RUNNING_BIT] and made the
    transition. *)
Definition transition_made {T : Type} {C : Collaborators T} (m : machine T)
  : machine T :=
  set_sb (delta_transition
            (the_sb (set_backend_state
                       (Z.setbit (backend_state (the_sb m))
                                 (Z.of_nat TUX3_COMMIT_RUNNING_BIT)) m))) m.

(** The state once this thread took [TUX3_COMMIT_PENDING_BIT] away and
    flushed. *)
Definition flush_made {T : Type} {C : Collaborators T} (m : machine T)
  : machine T :=
  set_sb (snd (flush_delta
                 (the_sb (set_backend_state
                            (Z.clearbit (backend_state (the_sb m))
                                        (Z.of_nat TUX3_COMMIT_PENDING_BIT)) m))))
         m.

(** Nobody else stages delta [d], and whoever holds
    [TUX3_COMMIT_RUNNING_BIT] keeps it. *)
Definition keeps_unstaged {T : Type} (env : environment T) (d : Z) : Prop :=
  forall i m,
    delta_after_eq (staging_delta (the_sb m)) d = false ->
    delta_after_eq (staging_delta (the_sb (env i m))) d = false.

Definition keeps_running {T : Type} {C : Collaborators T}
    (env : environment T) : Prop :=
  forall i m,
    bit_is_set TUX3_COMMIT_RUNNING_BIT m = true ->
    bit_is_set TUX3_COMMIT_RUNNING_BIT (env i m) = true.

(** Delta [d] is not staged and another thread holds
    [TUX3_COMMIT_RUNNING_BIT]. *)
Definition driven_by_another {T : Type} {C : Collaborators T}
    (d : Z) (m : machine T) : Prop :=
  bit_is_set TUX3_COMMIT_RUNNING_BIT m = true /\
  delta_after_eq (staging_delta (the_sb m)) d = false.

(** Accesses that flush or write [*nr_pages]. *)
Definition flushes_or_stores (o : op) : bool :=
  match o with
  | CallFlushDelta | StoreNrPages _ => true
  | _ => false
  end.

(* ------------------------------------------------------------------ *)
(** ** Epoch ordering *)

Lemma to_unsigned_small (x : Z) :
  0 <= x < DELTA_RANGE -> to_unsigned x = x.
Proof. intros H. unfold to_unsigned. now apply Z.mod_small. Qed.

Lemma to_unsigned_sub_l (a b : Z) :
  to_unsigned (to_unsigned a - b) = to_unsigned (a - b).
Proof. unfold to_unsigned. apply Zminus_mod_idemp_l. Qed.

Lemma to_unsigned_sub_r (a b : Z) :
  to_unsigned (a - to_unsigned b) = to_unsigned (a - b).
Proof. unfold to_unsigned. apply Zminus_mod_idemp_r. Qed.

Lemma delta_after_eq_refl (a : Z) : delta_after_eq a a = true.
Proof.
  unfold delta_after_eq. rewrite Z.sub_diag. reflexivity.
Qed.

Lemma delta_after_eq_ahead (b k : Z) :
  0 <= k < HALF_RANGE -> delta_after_eq (to_unsigned (b + k)) b = true.
Proof.
  intros Hk. unfold delta_after_eq.
  rewrite to_unsigned_sub_l.
  replace (b + k - b) with k by ring.
  assert (HR : HALF_RANGE < DELTA_RANGE) by reflexivity.
  rewrite to_unsigned_small by lia.
  unfold to_signed.
  destruct (Z.ltb_spec k HALF_RANGE); [apply Z.leb_le|]; lia.
Qed.

Lemma delta_after_eq_behind (b k : Z) :
  0 <= k < HALF_RANGE ->
  delta_after_eq b (to_unsigned (b + k)) = (k =? 0).
Proof.
  intros Hk. unfold delta_after_eq.
  rewrite to_unsigned_sub_r.
  replace (b - (b + k)) with (- k) by ring.
  assert (HR : DELTA_RANGE = 2 * HALF_RANGE) by reflexivity.
  assert (HH : 0 < HALF_RANGE) by reflexivity.
  destruct (Z.eqb_spec k 0) as [-> | Hne]; [reflexivity|].
  assert (Hm : to_unsigned (- k) = DELTA_RANGE - k).
  { unfold to_unsigned. symmetry.
    apply Z.mod_unique with (q := -1); lia. }
  rewrite Hm. unfold to_signed.
  destruct (Z.ltb_spec (DELTA_RANGE - k) HALF_RANGE); [lia|].
  apply Z.leb_gt. lia.
Qed.

(** C3: [delta_after_eq], the signed reading of the unsigned difference, is
    reflexive, and for every [b] and every distance [k] below half of the
    counter's range the epoch [b + k] (wrapped to the counter's width) is
    after-or-equal [b], while [b] is after-or-equal [b + k] only when
    [k = 0]. *)
Theorem delta_after_eq_wraparound (a b k : Z) (Hk : 0 <= k < HALF_RANGE) :
  delta_after_eq a a = true /\
  delta_after_eq (to_unsigned (b + k)) b = true /\
  (k <> 0 -> delta_after_eq b (to_unsigned (b + k)) = false) /\
  (k = 0 -> delta_after_eq b (to_unsigned (b + k)) = true).
Proof.
  split; [apply delta_after_eq_refl|].
  split; [now apply delta_after_eq_ahead|].
  rewrite delta_after_eq_behind by assumption.
  split; intros H.
  - now apply Z.eqb_neq.
  - now apply Z.eqb_eq.
Qed.

Lemma delta_after_eq_wraparound_witness :
  0 <= 3 < HALF_RANGE /\
  delta_after_eq 7 7 = true /\
  delta_after_eq (to_unsigned (4294967295 + 3)) 4294967295 = true /\
  (3 <> 0 -> delta_after_eq 4294967295 (to_unsigned (4294967295 + 3)) = false) /\
  (3 = 0 -> delta_after_eq 4294967295 (to_unsigned (4294967295 + 3)) = true).
Proof.
  split; [unfold HALF_RANGE; simpl; lia|].
  apply (delta_after_eq_wraparound 7 4294967295 3).
  unfold HALF_RANGE; simpl; lia.
Defined.

(* ------------------------------------------------------------------ *)
(** ** Running a program *)

Section RunFacts.
Context {T : Type} {C : Collaborators T}.
Variable env : environment T.
Variable tid : nat.

Lemma run_bind {A B : Type} (p : prog A) (f : A -> prog B) :
  forall m tr,
    run env tid (bind p f) m tr =
    outcome_bind (run env tid p m tr) (fun a m' tr' => run env tid (f a) m' tr').
Proof.
  induction p as [a | o k IH | ]; intros m tr; cbn [bind run outcome_bind];
    try reflexivity.
  destruct (exec tid o (env (length tr) m)) as [v m2 | | ]; cbn; auto.
Qed.

Lemma run_bind_returned {A B : Type} (p : prog A) (f : A -> prog B)
    m tr b m' tr' :
  run env tid (bind p f) m tr = Returned b m' tr' ->
  exists a m1 tr1,
    run env tid p m tr = Returned a m1 tr1 /\
    run env tid (f a) m1 tr1 = Returned b m' tr'.
Proof.
  rewrite run_bind. destruct (run env tid p m tr) as [a m1 tr1 | | | ];
    cbn; try discriminate.
  intros H. now exists a, m1, tr1.
Qed.

(** A killable wait returns 0 right after its condition held, and
    [-ERESTARTSYS] right after it saw the fatal signal. *)
Lemma wait_event_killable_returned (condition : prog Z)
    (Q : machine T -> Prop) :
  (forall m tr c m' tr',
      run env tid condition m tr = Returned c m' tr' -> c <> 0 -> Q m') ->
  forall n m tr r m' tr',
    run env tid (wait_event_killable n condition) m tr = Returned r m' tr' ->
    (r = 0 /\ Q m') \/ (r = - ERESTARTSYS /\ killed m' tid = true).
Proof.
  intros Hc.
  assert (Hloop : forall n m tr r m' tr',
    run env tid (__wait_event_killable n condition) m tr = Returned r m' tr' ->
    (r = 0 /\ Q m') \/ (r = - ERESTARTSYS /\ killed m' tid = true)).
  { induction n as [| n IH]; intros m tr r m' tr' H; [discriminate H|].
    cbn [__wait_event_killable] in H.
    apply run_bind_returned in H as (c & m1 & tr1 & Hcond & H).
    destruct (Z.eqb_spec c 0) as [-> | Hne].
    - cbn [bind call run exec] in H.
      destruct (killed (env (length tr1) m1) tid) eqn:Hk.
      + cbn in H. inversion H; subst. right. split; [reflexivity | exact Hk].
      + cbn [bind call run exec] in H. eapply IH. exact H.
    - cbn in H. inversion H; subst. left. split; [reflexivity|].
      eapply Hc; eauto. }
  intros n m tr r m' tr' H. unfold wait_event_killable in H.
  apply run_bind_returned in H as (c & m1 & tr1 & Hcond & H).
  destruct (Z.eqb_spec c 0) as [-> | Hne].
  - eapply Hloop; eauto.
  - cbn in H. inversion H; subst. left. split; [reflexivity|].
    eapply Hc; eauto.
Qed.

(** With a fatal signal pending for good, a killable wait that is allowed
    to enter its loop returns, whatever its condition says, as long as the
    condition itself returns and leaves the signal alone. *)
Lemma wait_event_killable_killed (condition : prog Z) :
  keeps_killed env tid ->
  (forall m tr, killed m tid = true ->
     exists c m' tr', run env tid condition m tr = Returned c m' tr' /\
                      killed m' tid = true) ->
  forall n m tr, killed m tid = true ->
    exists r m' tr',
      run env tid (wait_event_killable (S n) condition) m tr = Returned r m' tr'
      /\ (r = 0 \/ r = - ERESTARTSYS).
Proof.
  intros Henv Hc n m tr Hk.
  unfold wait_event_killable. rewrite run_bind.
  destruct (Hc m tr Hk) as (c & m1 & tr1 & -> & Hk1). cbn [outcome_bind].
  destruct (Z.eqb_spec c 0) as [-> | Hne].
  - cbn [__wait_event_killable]. rewrite run_bind.
    destruct (Hc m1 tr1 Hk1) as (c2 & m2 & tr2 & -> & Hk2). cbn [outcome_bind].
    destruct (Z.eqb_spec c2 0) as [-> | Hne2].
    + cbn [bind call run exec]. rewrite (Henv _ _ Hk2). cbn. eauto 6.
    + cbn. eauto 6.
  - cbn. eauto 6.
Qed.

End RunFacts.

(* ------------------------------------------------------------------ *)
(** ** The transition driver *)

Section Transition.
Context {T : Type} {C : Collaborators T}.

Lemma async_try_delta_transition_until_delta :
  FlusherAsync.try_delta_transition_until_delta =
  FlusherSync.try_delta_transition_until_delta.
Proof. reflexivity. Qed.

Lemma async_wait_for_transition :
  FlusherAsync.wait_for_transition = FlusherSync.wait_for_transition.
Proof. reflexivity. Qed.

Lemma bit_is_set_clear (nr : nat) (v : Z) (m : machine T) :
  bit_is_set nr (set_backend_state (Z.clearbit v (Z.of_nat nr)) m) = false.
Proof.
  unfold bit_is_set. cbn. apply Z.clearbit_eq.
Qed.

Lemma sync_rechecks_after_winning :
  rechecks_after_winning FlusherSync.try_delta_transition_until_delta.
Proof.
  intros env tid d m m1 m2 m3.
  unfold FlusherSync.try_delta_transition_until_delta.
  cbn [bind call run exec length app].
  fold m1.
  destruct (delta_after_eq (staging_delta (the_sb m1)) d) eqn:H1.
  - (* the delta was staged already *)
    cbn. do 3 eexists. split; [reflexivity|]. split.
    + split; [intros [Hx | []]; discriminate Hx | intros (Hx & _); discriminate Hx].
    + intros Hx; discriminate Hx.
  - cbn [bind call run exec length app]. fold m2.
    destruct (bit_is_set TUX3_COMMIT_RUNNING_BIT m2) eqn:H2.
    + (* lost the election *)
      cbn. do 3 eexists. split; [reflexivity|]. split.
      * split.
        -- intros [Hx | [Hx | [Hx | []]]]; discriminate Hx.
        -- intros (_ & Hx & _); discriminate Hx.
      * intros _ Hx; discriminate Hx.
    + cbn [negb bind call run exec length app]. fold m3.
      destruct (delta_after_eq (staging_delta (the_sb m3)) d) eqn:H3.
      * (* won, and the delta got staged meanwhile *)
        cbn [bind call run exec length app].
        do 3 eexists. split; [reflexivity|]. split.
        -- split.
           ++ intros [Hx | [Hx | [Hx | [Hx | []]]]]; discriminate Hx.
           ++ intros (_ & _ & Hx); discriminate Hx.
        -- intros _ _ _. split; [reflexivity|].
           split; [apply bit_is_set_clear | reflexivity].
      * (* won, and the delta is still to be staged *)
        cbn [bind call run exec length app].
        do 3 eexists. split; [reflexivity|]. split.
        -- split; [auto | intros _; cbn; auto].
        -- intros _ _ Hx; discriminate Hx.
Qed.

End Transition.

(** C4: in [try_delta_transition_until_delta] (both configurations), a
    thread that wins [TUX3_COMMIT_RUNNING_BIT] and then finds
    [delta_after_eq(staging_delta, delta)] true clears the bit and returns 1
    without calling [delta_transition]; [delta_transition] is called only
    when the winner's second test is false as well. *)
Theorem try_delta_transition_until_delta_rechecks
    {T : Type} {C : Collaborators T} :
  rechecks_after_winning FlusherSync.try_delta_transition_until_delta /\
  rechecks_after_winning FlusherAsync.try_delta_transition_until_delta.
Proof.
  split.
  - apply sync_rechecks_after_winning.
  - rewrite async_try_delta_transition_until_delta.
    apply sync_rechecks_after_winning.
Qed.

Lemma try_delta_transition_until_delta_rechecks_witness :
  exists c m' tr',
    run (C := Demo.layer 0) Demo.overtaken 0
        (FlusherSync.try_delta_transition_until_delta (C := Demo.layer 0) 6)
        (Demo.volume 5 5 0 6 Demo.nobody) [] = Returned c m' tr' /\
    c = 1 /\
    bit_is_set 0 m' = false /\
    tr' = [ReadStagingDelta; TestAndSetBit 0; ReadStagingDelta; ClearBit 0].
Proof.
  destruct (proj1 (try_delta_transition_until_delta_rechecks (C := Demo.layer 0))
              Demo.overtaken 0%nat 6 (Demo.volume 5 5 0 6 Demo.nobody))
    as (c & m' & tr' & Hrun & _ & Hwin).
  exists c, m', tr'. split; [exact Hrun|].
  apply Hwin; reflexivity.
Defined.

(* ------------------------------------------------------------------ *)
(** ** Waiting for the transition *)

Section WaitForTransition.
Context {T : Type} {C : Collaborators T}.
Variable env : environment T.
Variable tid : nat.

(** The condition of the wait is non-zero only with the delta staged. *)
Lemma try_delta_transition_until_delta_nonzero (d : Z) :
  keeps_staged env d ->
  forall m tr c m' tr',
    run env tid (FlusherSync.try_delta_transition_until_delta d) m tr
      = Returned c m' tr' ->
    c <> 0 ->
    delta_after_eq (staging_delta (the_sb m')) d = true.
Proof.
  intros Henv m tr c m' tr'.
  unfold FlusherSync.try_delta_transition_until_delta.
  cbn [bind call run exec].
  destruct (delta_after_eq (staging_delta (the_sb (env (length tr) m))) d) eqn:H1.
  - cbn. intros H _. inversion H; subst. exact H1.
  - cbn [bind call run exec].
    match goal with |- context [negb ?b] => destruct b end;
      cbn [negb bind call run exec].
    + match goal with |- context [delta_after_eq ?s d] =>
        destruct (delta_after_eq s d) eqn:H3 end.
      * intros H _. inversion H; subst. exact H3.
      * intros H Hc. inversion H; subst. now elim Hc.
    + match goal with |- context [delta_after_eq ?s d] =>
        destruct (delta_after_eq s d) eqn:H3 end;
        cbn [bind call run exec].
      * intros H _. inversion H; subst. cbn.
        exact (Henv _ _ H3).
      * match goal with |- context [delta_after_eq ?s d] =>
          destruct (delta_after_eq s d) eqn:H4 end.
        -- intros H _. inversion H; subst. exact H4.
        -- intros H Hc. inversion H; subst. now elim Hc.
Qed.

(** The condition always returns, and leaves a pending signal pending. *)
Lemma try_delta_transition_until_delta_returns (d : Z) :
  keeps_killed env tid ->
  forall m tr, killed m tid = true ->
    exists c m' tr',
      run env tid (FlusherSync.try_delta_transition_until_delta d) m tr
        = Returned c m' tr' /\
      killed m' tid = true.
Proof.
  intros Henv m tr Hk.
  unfold FlusherSync.try_delta_transition_until_delta.
  cbn [bind call run exec].
  repeat first
    [ match goal with
      | |- context [if delta_after_eq ?s d then _ else _] =>
          destruct (delta_after_eq s d)
      | |- context [negb ?b] => destruct b; cbn [negb]
      end
    | progress cbn [bind call run exec] ].
  all: do 3 eexists; (split; [reflexivity|]); cbn;
    repeat (apply Henv; cbn); exact Hk.
Qed.

(** With the delta staged on entry, the wait returns 0 at once. *)
Lemma wait_for_transition_staged (n : nat) (d : Z) (m : machine T) tr :
  keeps_staged env d ->
  delta_after_eq (staging_delta (the_sb m)) d = true ->
  run env tid (FlusherSync.wait_for_transition n d) m tr =
  Returned 0 (env (length tr) m) (tr ++ [ReadStagingDelta]).
Proof.
  intros Henv Hs.
  unfold FlusherSync.wait_for_transition, wait_event_killable,
    FlusherSync.try_delta_transition_until_delta.
  cbn [bind call run exec].
  rewrite (Henv _ _ Hs). reflexivity.
Qed.

End WaitForTransition.

(** C7: [wait_for_transition(sb, delta)] returns 0 only with
    [delta_after_eq(staging_delta, delta)] true at the return, and otherwise
    returns [-ERESTARTSYS], the thread having a fatal signal pending; it does
    return once the signal is pending, and it returns 0 at once when the
    delta is staged on entry.  The other threads, acting between any two
    accesses of this one, are only asked not to take [staging_delta] back
    behind [delta] nor to withdraw the signal. *)
Theorem wait_for_transition_result {T : Type} {C : Collaborators T}
    (env : environment T) (tid : nat) (n : nat) (d : Z) (m : machine T)
    (Hstaged : keeps_staged env d) (Hkilled : keeps_killed env tid) :
  (forall r m' tr',
      run env tid (FlusherSync.wait_for_transition n d) m [] = Returned r m' tr' ->
      (r = 0 /\ delta_after_eq (staging_delta (the_sb m')) d = true) \/
      (r = - ERESTARTSYS /\ killed m' tid = true)) /\
  (killed m tid = true -> (1 <= n)%nat ->
   exists r m' tr',
     run env tid (FlusherSync.wait_for_transition n d) m [] = Returned r m' tr' /\
     (r = 0 \/ r = - ERESTARTSYS)) /\
  (delta_after_eq (staging_delta (the_sb m)) d = true ->
   exists m' tr',
     run env tid (FlusherSync.wait_for_transition n d) m [] = Returned 0 m' tr').
Proof.
  split; [|split].
  - intros r m' tr' H.
    apply (wait_event_killable_returned env tid
             (FlusherSync.try_delta_transition_until_delta d)
             (fun m1 => delta_after_eq (staging_delta (the_sb m1)) d = true))
      with (n := n) (m := m) (tr := []) (tr' := tr'); [|exact H].
    intros m0 tr0 c m1 tr1 Hc Hne.
    eapply try_delta_transition_until_delta_nonzero; eauto.
  - intros Hk Hn. destruct n as [|n]; [lia|].
    apply wait_event_killable_killed; auto.
    intros m0 tr0 Hk0.
    now apply try_delta_transition_until_delta_returns.
  - intros Hs. do 2 eexists.
    now apply wait_for_transition_staged.
Qed.

Lemma wait_for_transition_result_witness :
  exists r m' tr',
    run (C := Demo.layer 0) alone 0
        (FlusherSync.wait_for_transition (C := Demo.layer 0) 1 6)
        (Demo.volume 5 5 1 6 Demo.everybody) [] = Returned r m' tr' /\
    (r = 0 \/ r = - ERESTARTSYS).
Proof.
  apply (wait_for_transition_result (C := Demo.layer 0) alone 0%nat 1%nat 6
           (Demo.volume 5 5 1 6 Demo.everybody)).
  - intros i m H. exact H.
  - intros i m H. exact H.
  - reflexivity.
  - lia.
Defined.

(* ------------------------------------------------------------------ *)
(** ** sync_current_delta, TUX3_FLUSHER_SYNC *)

(** C9: when [sync_current_delta(sb, ALLOW_UNIFY)] of the sync flusher is
    entered with [delta_lock] free, the current delta [D] (the one
    [delta_get] hands out) already staged and committed and
    [TUX3_COMMIT_PENDING_BIT] clear, and taking and dropping the reference
    leaves the two counters and the flags as they are, the call returns 0
    without calling [delta_transition] or [flush_delta] and without setting
    or clearing any bit of [backend_state]. *)
Theorem sync_current_delta_nothing_to_do {T : Type} {C : Collaborators T}
    (tid n : nat) (m : machine T) :
  let s := the_sb m in
  let r := fst (delta_get (write_locked s)) in
  let s1 := delta_put r (snd (delta_get (write_locked s))) in
  delta_lock s = rwsem_free ->
  staging_delta s1 = staging_delta s ->
  committed_delta s1 = committed_delta s ->
  backend_state s1 = backend_state s ->
  delta_after_eq (staging_delta s) (delta r) = true ->
  delta_after_eq (committed_delta s) (delta r) = true ->
  bit_is_set TUX3_COMMIT_PENDING_BIT m = false ->
  exists m' tr,
    run alone tid (FlusherSync.sync_current_delta n ALLOW_UNIFY) m []
      = Returned 0 m' tr /\
    backend_state (the_sb m') = backend_state (the_sb m) /\
    forallb quiet tr = true.
Proof.
  intros s r s1 Hlock Hst Hco Hbs Hstaged Hcommitted _.
  unfold FlusherSync.sync_current_delta, FlusherSync.wait_for_transition,
    FlusherSync.wait_for_commit, wait_event_killable,
    FlusherSync.try_delta_transition_until_delta,
    FlusherSync.try_flush_pending_until_delta.
  cbn [bind call run exec]. unfold alone.
  fold s. rewrite Hlock.
  cbn [writer readers rwsem_free orb negb Nat.eqb bind call run exec].
  unfold alone.
  change (the_sb (set_delta_lock {| writer := true; readers := 0 |} m))
    with (write_locked s).
  cbn [the_sb set_sb]. fold r. fold s1.
  rewrite Hst, Hstaged.
  cbn [bind call run exec the_sb set_sb Z.eqb negb]. unfold alone.
  cbn [the_sb set_sb].
  rewrite Hst, Hstaged.
  cbn [bind call run exec the_sb set_sb Z.eqb negb]. unfold alone.
  cbn [the_sb set_sb].
  rewrite Hco, Hcommitted.
  cbn [bind call run exec the_sb set_sb Z.eqb negb Z.b2z]. unfold alone.
  cbn [the_sb set_sb].
  rewrite Hco, Hcommitted.
  cbn [bind call run exec the_sb set_sb Z.eqb negb Z.b2z]. unfold alone.
  cbn [the_sb set_sb].
  rewrite Hco, Hcommitted.
  do 2 eexists. split; [reflexivity|].
  split; [cbn; exact Hbs | reflexivity].
Qed.

Lemma sync_current_delta_nothing_to_do_witness :
  exists m' tr,
    run (C := Demo.layer 0) alone 0
        (FlusherSync.sync_current_delta (C := Demo.layer 0) 0 ALLOW_UNIFY)
        (Demo.volume 6 6 0 6 Demo.nobody) [] = Returned 0 m' tr /\
    backend_state (the_sb m') = 0 /\
    forallb quiet tr = true.
Proof.
  apply (sync_current_delta_nothing_to_do (C := Demo.layer 0) 0%nat 0%nat
           (Demo.volume 6 6 0 6 Demo.nobody)); reflexivity.
Defined.

(* ------------------------------------------------------------------ *)
(** ** tux3_writeback, TUX3_FLUSHER_ASYNC *)

Section Writeback.
Context {T : Type} {C : Collaborators T}.
Variable env : environment T.
Variable tid : nat.

Lemma tux3_writeback_not_active (n : nat) (m : machine T) :
  Z.land (s_flags (env 0%nat m)) MS_ACTIVE = 0 ->
  run env tid (FlusherAsync.tux3_writeback n) m [] =
  Returned 0 (env 0%nat m) [ReadSFlags].
Proof.
  intros H. unfold FlusherAsync.tux3_writeback.
  cbn [bind call run exec length]. rewrite H. reflexivity.
Qed.

Lemma wait_for_transition_codes (n : nat) (d : Z) m tr r m' tr' :
  run env tid (FlusherAsync.wait_for_transition n d) m tr = Returned r m' tr' ->
  r = 0 \/ (r = - ERESTARTSYS /\ killed m' tid = true).
Proof.
  intros H.
  destruct (wait_event_killable_returned env tid
              (FlusherAsync.try_delta_transition_until_delta d)
              (fun _ => True) (fun _ _ _ _ _ _ _ => I) n m tr r m' tr' H)
    as [[-> _] | H1]; auto.
Qed.

Lemma tux3_writeback_active (n : nat) (m : machine T) r m' tr :
  Z.land (s_flags (env 0%nat m)) MS_ACTIVE <> 0 ->
  run env tid (FlusherAsync.tux3_writeback n) m [] = Returned r m' tr ->
  (r = 1 /\ nr_pages m' = 0) \/ (r = - ERESTARTSYS /\ killed m' tid = true).
Proof.
  intros Hact H. unfold FlusherAsync.tux3_writeback in H.
  cbn [bind call run exec length] in H.
  apply Z.eqb_neq in Hact. rewrite Hact in H.
  cbn [bind call run exec] in H.
  apply run_bind_returned in H as (err & m1 & tr1 & Hw & H).
  apply wait_for_transition_codes in Hw as [-> | [-> Hk]].
  - cbn [negb Z.eqb bind call run exec] in H.
    match type of H with context [Assert ?b] => destruct b end;
      [| discriminate H].
    cbn [bind call run exec] in H.
    apply run_bind_returned in H as ([] & m2 & tr2 & _ & H).
    cbn [bind call run exec] in H.
    match type of H with context [if ?b then _ else _] => destruct b end;
      cbn [bind call run exec fst snd] in H;
      inversion H; subst; left; split; reflexivity.
  - cbn in H. inversion H; subst. right. split; [reflexivity | exact Hk].
Qed.

End Writeback.

(** C10: [tux3_writeback] returns 0 at once, having only read [s_flags],
    when [MS_ACTIVE] is not set there; with [MS_ACTIVE] set, a call that
    returns either was killed in [wait_for_transition] and returns
    [-ERESTARTSYS], or returns 1 with [*nr_pages] set to 0. *)
Theorem tux3_writeback_result {T : Type} {C : Collaborators T}
    (env : environment T) (tid n : nat) (m : machine T) :
  (Z.land (s_flags (env 0%nat m)) MS_ACTIVE = 0 ->
   run env tid (FlusherAsync.tux3_writeback n) m [] =
   Returned 0 (env 0%nat m) [ReadSFlags]) /\
  (Z.land (s_flags (env 0%nat m)) MS_ACTIVE <> 0 ->
   forall r m' tr,
     run env tid (FlusherAsync.tux3_writeback n) m [] = Returned r m' tr ->
     (r = 1 /\ nr_pages m' = 0) \/
     (r = - ERESTARTSYS /\ killed m' tid = true)).
Proof.
  split.
  - apply tux3_writeback_not_active.
  - intros H r m' tr. now apply tux3_writeback_active.
Qed.

Lemma tux3_writeback_result_witness :
  run (C := Demo.layer 0) alone 0
      (FlusherAsync.tux3_writeback (C := Demo.layer 0) 0)
      (Demo.replaying 6 5 3 6) [] =
  Returned 0 (Demo.replaying 6 5 3 6) [ReadSFlags] /\
  (forall r m' tr,
      run (C := Demo.layer 0) alone 0
          (FlusherAsync.tux3_writeback (C := Demo.layer 0) 0)
          (Demo.volume 6 5 3 6 Demo.nobody) [] = Returned r m' tr ->
      (r = 1 /\ nr_pages m' = 0) \/
      (r = - ERESTARTSYS /\ killed m' 0%nat = true)).
Proof.
  split.
  - apply (proj1 (tux3_writeback_result (C := Demo.layer 0) alone 0%nat 0%nat
                    (Demo.replaying 6 5 3 6))).
    reflexivity.
  - apply (proj2 (tux3_writeback_result (C := Demo.layer 0) alone 0%nat 0%nat
                    (Demo.volume 6 5 3 6 Demo.nobody))).
    intros H. discriminate H.
Defined.

(** The completion path is taken: a mounted volume whose open delta is
    staged and pending is flushed once, [*nr_pages] becomes 0 and 1 is
    returned. *)
Example tux3_writeback_completes :
  exists m',
    run (C := Demo.layer 0) alone 0
        (FlusherAsync.tux3_writeback (C := Demo.layer 0) 0)
        (Demo.volume 6 5 3 6 Demo.nobody) [] =
    Returned 1 m'
      [ReadSFlags; CallDeltaGet; CallDeltaPut (mk_delta_ref 6);
       ReadStagingDelta; ReadStagingDelta; Assert true; TestBit 1; TestBit 1;
       ClearBit 1; CallFlushDelta; StoreNrPages 0] /\
    nr_pages m' = 0 /\ committed_delta (the_sb m') = 6.
Proof.
  eexists. split; [reflexivity|]. split; reflexivity.
Qed.

(* ------------------------------------------------------------------ *)
(** ** sync_current_delta, TUX3_FLUSHER_ASYNC *)

(** C8: in the async configuration [sync_current_delta(sb, FORCE_UNIFY)]
    never fails an assertion, fires its [WARN_ON], and otherwise does exactly
    what the call with [ALLOW_UNIFY] does: it takes [s_umount] for reading,
    calls [sync_inodes_sb], releases [s_umount] and returns 0, calling
    neither [delta_transition] nor [flush_delta]; it returns whenever
    [s_umount] is not held for writing. *)
Theorem sync_current_delta_force_unify {T : Type} {C : Collaborators T}
    (env : environment T) (tid : nat) (m : machine T) :
  let forced := run env tid (FlusherAsync.sync_current_delta FORCE_UNIFY) m [] in
  let allowed := run env tid (FlusherAsync.sync_current_delta ALLOW_UNIFY) m [] in
  has_crashed forced = false /\
  forced = with_warning allowed /\
  (forall r m' tr,
      forced = Returned r m' tr ->
      r = 0 /\
      tr = [WarnOn true; DownReadSUmount; CallSyncInodesSb; UpReadSUmount]) /\
  (writer (s_umount (env 1%nat (env 0%nat m))) = false ->
   exists m', forced = Returned 0 m'
     [WarnOn true; DownReadSUmount; CallSyncInodesSb; UpReadSUmount]).
Proof.
  unfold FlusherAsync.sync_current_delta.
  cbn [bind call run exec unify_flags_eqb length app].
  destruct (writer (s_umount (env 1%nat (env 0%nat m)))) eqn:Hw;
    cbn [bind call run exec length app has_crashed with_warning map warned].
  - split; [reflexivity|]. split; [reflexivity|].
    split; [intros r m' tr H; discriminate H | intros H; discriminate H].
  - split; [reflexivity|]. split; [reflexivity|]. split.
    + intros r m' tr H. inversion H; subst. split; reflexivity.
    + intros _. eexists. reflexivity.
Qed.

Lemma sync_current_delta_force_unify_witness :
  exists m',
    run (C := Demo.layer 0) alone 0
        (FlusherAsync.sync_current_delta FORCE_UNIFY)
        (Demo.volume 6 5 3 6 Demo.nobody) [] =
    Returned 0 m'
      [WarnOn true; DownReadSUmount; CallSyncInodesSb; UpReadSUmount].
Proof.
  apply (sync_current_delta_force_unify (C := Demo.layer 0) alone 0%nat
           (Demo.volume 6 5 3 6 Demo.nobody)).
  reflexivity.
Defined.

(* ------------------------------------------------------------------ *)
(** ** sync_current_delta, TUX3_FLUSHER_SYNC: the return paths *)

(** C2, on the code: a call of [sync_current_delta] that is killed while it
    waits for the transition (another thread holds
    [TUX3_COMMIT_RUNNING_BIT] and the open delta is not staged) returns
    [-ERESTARTSYS] through [if (err) return err;] with [delta_lock] still
    held for writing: no [up_write] was made, and the next caller blocks in
    [down_write]. *)
Theorem sync_current_delta_killed_keeps_delta_lock :
  exists m' tr,
    run (C := Demo.layer 0) alone 0
        (FlusherSync.sync_current_delta (C := Demo.layer 0) 1 ALLOW_UNIFY)
        (Demo.volume 5 5 1 6 Demo.everybody) [] =
    Returned (- ERESTARTSYS) m' tr /\
    delta_lock (the_sb m') = mk_rwsem true 0 /\
    existsb (fun o => match o with UpWriteDeltaLock => true | _ => false end) tr
      = false /\
    run (C := Demo.layer 0) alone 1
        (FlusherSync.sync_current_delta (C := Demo.layer 0) 1 ALLOW_UNIFY)
        m' [] = Blocked m' [].
Proof.
  do 2 eexists. split; [reflexivity|]. repeat split.
Qed.

(** The return path after [wait_for_commit] does release the lock. *)
Example sync_current_delta_commit_path_releases_delta_lock :
  exists m' tr,
    run (C := Demo.layer 0) alone 0
        (FlusherSync.sync_current_delta (C := Demo.layer 0) 1 ALLOW_UNIFY)
        (Demo.volume 5 5 0 6 Demo.nobody) [] = Returned 0 m' tr /\
    delta_lock (the_sb m') = rwsem_free /\
    committed_delta (the_sb m') = 6.
Proof.
  do 2 eexists. split; [reflexivity|]. split; reflexivity.
Qed.

(** C5, on the code: [flush_delta] fails with [-EIO] during
    [sync_current_delta]; [try_flush_pending_until_delta] drops what
    [flush_pending_delta] returns, so the error never is the return value.
    If the failed flush still moved [committed_delta], the call returns 0;
    if it did not, the call sleeps on, and returns [-ERESTARTSYS] when
    killed. *)
Theorem sync_current_delta_drops_flush_error :
  (exists m' tr,
      run (C := Demo.layer (- Demo.EIO)) alone 0
          (FlusherSync.sync_current_delta (C := Demo.layer (- Demo.EIO))
             1 ALLOW_UNIFY)
          (Demo.volume 5 5 0 6 Demo.nobody) [] = Returned 0 m' tr /\
      existsb (fun o => match o with CallFlushDelta => true | _ => false end) tr
        = true) /\
  (exists m' tr,
      run (C := Demo.failing_layer (- Demo.EIO)) alone 0
          (FlusherSync.sync_current_delta (C := Demo.failing_layer (- Demo.EIO))
             3 ALLOW_UNIFY)
          (Demo.volume 5 5 0 6 Demo.nobody) [] = Asleep m' tr /\
      existsb (fun o => match o with CallFlushDelta => true | _ => false end) tr
        = true) /\
  (exists m' tr,
      run (C := Demo.failing_layer (- Demo.EIO)) alone 0
          (FlusherSync.sync_current_delta (C := Demo.failing_layer (- Demo.EIO))
             3 ALLOW_UNIFY)
          (Demo.volume 5 5 0 6 Demo.everybody) [] =
      Returned (- ERESTARTSYS) m' tr /\
      existsb (fun o => match o with CallFlushDelta => true | _ => false end) tr
        = true).
Proof.
  split; [|split]; do 2 eexists; (split; [reflexivity|]); reflexivity.
Qed.

(* ------------------------------------------------------------------ *)
(** ** Waits and fatal signals *)

Ltac alone_steps :=
  repeat match goal with
         | |- context [alone ?i ?m] => change (alone i m) with m
         end.

Ltac run_branches :=
  repeat first
    [ progress cbn [bind call run exec negb]
    | match goal with
      | |- context [if ?b then _ else _] => destruct b eqn:?
      end ].

Section Waits.
Context {T : Type} {C : Collaborators T}.
Variable env : environment T.
Variable tid : nat.

Lemma try_flush_pending_until_delta_returns (d : Z) :
  keeps_killed env tid ->
  forall m tr, killed m tid = true ->
    exists c m' tr',
      run env tid (FlusherSync.try_flush_pending_until_delta d) m tr
        = Returned c m' tr' /\
      killed m' tid = true.
Proof.
  intros Henv m tr Hk.
  unfold FlusherSync.try_flush_pending_until_delta,
    FlusherSync.flush_pending_delta.
  run_branches.
  all: do 3 eexists; (split; [reflexivity|]); cbn;
    repeat (apply Henv; cbn); exact Hk.
Qed.

Lemma try_flush_pending_until_delta_nonzero (d : Z) m tr c m' tr' :
  run env tid (FlusherSync.try_flush_pending_until_delta d) m tr
    = Returned c m' tr' ->
  c <> 0 ->
  delta_after_eq (committed_delta (the_sb m')) d = true.
Proof.
  unfold FlusherSync.try_flush_pending_until_delta,
    FlusherSync.flush_pending_delta.
  run_branches; intros H Hc; inversion H; subst; clear H;
    match goal with
    | |- ?b = true => destruct b; [reflexivity | now elim Hc]
    end.
Qed.

(** An uninterruptible wait returns right after its condition held. *)
Lemma wait_event_returned (condition : prog Z) (Q : machine T -> Prop) :
  (forall m tr c m' tr',
      run env tid condition m tr = Returned c m' tr' -> c <> 0 -> Q m') ->
  forall n m tr u m' tr',
    run env tid (wait_event n condition) m tr = Returned u m' tr' -> Q m'.
Proof.
  intros Hc.
  assert (Hloop : forall n m tr u m' tr',
    run env tid (__wait_event n condition) m tr = Returned u m' tr' -> Q m').
  { induction n as [| n IH]; intros m tr u m' tr' H; [discriminate H|].
    cbn [__wait_event] in H.
    apply run_bind_returned in H as (c & m1 & tr1 & Hcond & H).
    destruct (Z.eqb_spec c 0) as [-> | Hne].
    - cbn [bind call run exec] in H. eapply IH. exact H.
    - cbn in H. inversion H; subst. eapply Hc; eauto. }
  intros n m tr u m' tr' H. unfold wait_event in H.
  apply run_bind_returned in H as (c & m1 & tr1 & Hcond & H).
  destruct (Z.eqb_spec c 0) as [-> | Hne].
  - eapply Hloop; eauto.
  - cbn in H. inversion H; subst. eapply Hc; eauto.
Qed.

(** While its condition stays false it sleeps, signal or no signal. *)
Lemma wait_event_asleep (condition : prog Z) (P : machine T -> Prop) :
  (forall i m, P m -> P (env i m)) ->
  (forall m tr, P m ->
     exists m' tr', run env tid condition m tr = Returned 0 m' tr' /\ P m') ->
  forall n m tr, P m ->
    exists m' tr', run env tid (wait_event n condition) m tr = Asleep m' tr'.
Proof.
  intros Henv Hc.
  assert (Hloop : forall n m tr, P m ->
    exists m' tr', run env tid (__wait_event n condition) m tr = Asleep m' tr').
  { induction n as [| n IH]; intros m tr Hm.
    - cbn. eauto.
    - cbn [__wait_event]. rewrite run_bind.
      destruct (Hc m tr Hm) as (m1 & tr1 & -> & Hm1).
      cbn [outcome_bind Z.eqb bind call run exec].
      apply IH. now apply Henv. }
  intros n m tr Hm. unfold wait_event. rewrite run_bind.
  destruct (Hc m tr Hm) as (m1 & tr1 & -> & Hm1).
  cbn [outcome_bind Z.eqb]. now apply Hloop.
Qed.

Lemma wait_for_pending_returned (n : nat) m tr u m' tr' :
  run env tid (FlusherAsync.wait_for_pending n) m tr = Returned u m' tr' ->
  bit_is_set TUX3_COMMIT_PENDING_BIT m' = true.
Proof.
  apply (wait_event_returned _
           (fun m1 => bit_is_set TUX3_COMMIT_PENDING_BIT m1 = true)).
  clear. intros m tr c m' tr'. cbn [bind call run exec].
  destruct (bit_is_set TUX3_COMMIT_PENDING_BIT (env (length tr) m)) eqn:Hb;
    intros H Hc; inversion H; subst; [exact Hb | now elim Hc].
Qed.

Lemma wait_for_pending_asleep (n : nat) m tr :
  keeps_not_pending env ->
  bit_is_set TUX3_COMMIT_PENDING_BIT m = false ->
  exists m' tr', run env tid (FlusherAsync.wait_for_pending n) m tr = Asleep m' tr'.
Proof.
  intros Henv Hm.
  apply (wait_event_asleep _
           (fun m1 => bit_is_set TUX3_COMMIT_PENDING_BIT m1 = false));
    [exact Henv | | exact Hm].
  clear m tr Hm. intros m tr Hm. cbn [bind call run exec].
  rewrite (Henv _ _ Hm). cbn. do 2 eexists. split; [reflexivity|].
  now apply Henv.
Qed.

End Waits.

(** A call of [sync_current_delta] that returns 0 leaves [committed_delta]
    at or after the delta it took from [delta_get], as long as the other
    threads never move [committed_delta] back behind it. *)
Lemma sync_current_delta_zero_committed {T : Type} {C : Collaborators T}
    (env : environment T) (tid n : nat) (unify_flag : unify_flags)
    (m m' : machine T) (tr : list op) :
  (forall d, keeps_committed env d) ->
  run env tid (FlusherSync.sync_current_delta n unify_flag) m []
    = Returned 0 m' tr ->
  let m1 := env 1%nat (set_delta_lock (mk_rwsem true 0) (env 0%nat m)) in
  delta_after_eq (committed_delta (the_sb m'))
                 (delta (fst (delta_get (the_sb m1)))) = true.
Proof.
  intros Henv H m1.
  unfold FlusherSync.sync_current_delta in H.
  cbn [bind call run exec length] in H.
  destruct (writer (delta_lock (the_sb (env 0%nat m)))
            || negb (readers (delta_lock (the_sb (env 0%nat m))) =? 0)%nat);
    [discriminate H|].
  cbn [bind call run exec length app] in H. fold m1 in H.
  set (d := delta (fst (delta_get (the_sb m1)))) in *.
  apply run_bind_returned in H as (err & m2 & tr2 & _ & H).
  destruct (Z.eqb_spec err 0) as [-> | Hne];
    cbn [negb Z.eqb bind call run exec] in H.
  2:{ inversion H; subst. now elim Hne. }
  match type of H with context [Assert ?b] => destruct b end;
    [| discriminate H].
  cbn [bind call run exec] in H.
  apply run_bind_returned in H as (err1 & m3 & tr3 & Hw & H).
  apply (wait_event_killable_returned env tid
           (FlusherSync.try_flush_pending_until_delta d)
           (fun m0 => delta_after_eq (committed_delta (the_sb m0)) d = true))
    in Hw.
  2:{ intros m0 tr0 c m4 tr4 Hc Hn.
      eapply try_flush_pending_until_delta_nonzero; eauto. }
  destruct Hw as [[-> Hq] | [-> _]].
  - cbn [negb Z.eqb bind call run exec] in H.
    apply (Henv d (length tr3)) in Hq. rewrite Hq in H.
    cbn [bind call run exec] in H. inversion H; subst. cbn.
    apply Henv. cbn. now apply Henv.
  - cbn [negb bind call run exec] in H. inversion H.
Qed.

(** With the open delta staged and no delta pending, [tux3_writeback] gets
    to its wait for [TUX3_COMMIT_PENDING_BIT] and stays there. *)
Lemma tux3_writeback_sleeps {T : Type} {C : Collaborators T}
    (tid n : nat) (m : machine T) :
  let r := fst (delta_get (the_sb m)) in
  let s1 := delta_put r (snd (delta_get (the_sb m))) in
  Z.land (s_flags m) MS_ACTIVE <> 0 ->
  delta_after_eq (staging_delta s1) (delta r) = true ->
  Z.testbit (backend_state s1) (Z.of_nat TUX3_COMMIT_PENDING_BIT) = false ->
  exists m' tr, run alone tid (FlusherAsync.tux3_writeback n) m [] = Asleep m' tr.
Proof.
  intros r s1 Hact Hst Hp.
  unfold FlusherAsync.tux3_writeback.
  cbn [bind call run exec]. alone_steps.
  apply Z.eqb_neq in Hact. rewrite Hact.
  cbn [bind call run exec]. alone_steps.
  cbn [the_sb set_sb]. fold r. fold s1.
  rewrite run_bind.
  rewrite async_wait_for_transition.
  rewrite wait_for_transition_staged;
    [| intros i m0 H; exact H | cbn; exact Hst].
  cbn [outcome_bind negb Z.eqb bind call run exec]. alone_steps.
  cbn [the_sb set_sb]. rewrite Hst.
  cbn [bind call run exec]. rewrite run_bind.
  match goal with
  | |- context [run alone tid (FlusherAsync.wait_for_pending n) ?m0 ?tr0] =>
      destruct (wait_for_pending_asleep alone tid n m0 tr0) as (m' & tr' & ->)
  end.
  - intros i m0 H. exact H.
  - unfold alone, bit_is_set. cbn. exact Hp.
  - cbn. eauto.
Qed.

(** C6, as the claim has it, fails: thread 0 has a fatal signal pending all
    along, and its [tux3_writeback] on a volume with nothing pending does not
    return, however often it is woken. *)
Lemma tux3_writeback_wait_ignores_fatal_signal :
  ~ (exists n r m' tr,
       run (C := Demo.layer 0) alone 0
           (FlusherAsync.tux3_writeback (C := Demo.layer 0) n)
           (Demo.volume 6 6 0 6 Demo.everybody) [] = Returned r m' tr).
Proof.
  intros (n & r & m' & tr & H).
  destruct (tux3_writeback_sleeps (C := Demo.layer 0) 0 n
              (Demo.volume 6 6 0 6 Demo.everybody)) as (m1 & tr1 & Hs).
  - intros Hx. discriminate Hx.
  - reflexivity.
  - reflexivity.
  - rewrite Hs in H. discriminate H.
Qed.

(** C6, amended: [wait_for_transition] and [wait_for_commit] are killable:
    with a fatal signal pending they return, 0 or [-ERESTARTSYS], instead of
    sleeping on, and [wait_for_commit] returns 0 only with the delta
    committed; the wait for [TUX3_COMMIT_PENDING_BIT] inside
    [tux3_writeback] is not: it returns only with the bit set and sleeps as
    long as nobody sets it, signal or no signal. *)
Theorem killable_and_plain_waits {T : Type} {C : Collaborators T}
    (env : environment T) (tid n : nat) (d : Z) (m : machine T)
    (Hkilled : keeps_killed env tid) (Hsig : killed m tid = true) :
  (exists r m' tr,
      run env tid (FlusherSync.wait_for_transition (S n) d) m [] = Returned r m' tr /\
      (r = 0 \/ r = - ERESTARTSYS)) /\
  (exists r m' tr,
      run env tid (FlusherAsync.wait_for_transition (S n) d) m [] = Returned r m' tr /\
      (r = 0 \/ r = - ERESTARTSYS)) /\
  (exists r m' tr,
      run env tid (FlusherSync.wait_for_commit (S n) d) m [] = Returned r m' tr /\
      (r = 0 \/ r = - ERESTARTSYS)) /\
  (forall r m' tr,
      run env tid (FlusherSync.wait_for_commit n d) m [] = Returned r m' tr ->
      (r = 0 /\ delta_after_eq (committed_delta (the_sb m')) d = true) \/
      (r = - ERESTARTSYS /\ killed m' tid = true)) /\
  (forall u m' tr,
      run env tid (FlusherAsync.wait_for_pending n) m [] = Returned u m' tr ->
      bit_is_set TUX3_COMMIT_PENDING_BIT m' = true) /\
  (keeps_not_pending env ->
   bit_is_set TUX3_COMMIT_PENDING_BIT m = false ->
   exists m' tr,
     run env tid (FlusherAsync.wait_for_pending n) m [] = Asleep m' tr).
Proof.
  assert (Htr : exists r m' tr,
      run env tid (FlusherSync.wait_for_transition (S n) d) m [] = Returned r m' tr /\
      (r = 0 \/ r = - ERESTARTSYS)).
  { apply wait_event_killable_killed; auto.
    intros m0 tr0 Hk0. now apply try_delta_transition_until_delta_returns. }
  split; [exact Htr|]. split; [exact Htr|]. split; [|split; [|split]].
  - apply wait_event_killable_killed; auto.
    intros m0 tr0 Hk0. now apply try_flush_pending_until_delta_returns.
  - intros r m' tr H.
    apply (wait_event_killable_returned env tid
             (FlusherSync.try_flush_pending_until_delta d)
             (fun m1 => delta_after_eq (committed_delta (the_sb m1)) d = true))
      with (n := n) (m := m) (tr := []) (tr' := tr); [|exact H].
    intros m0 tr0 c m1 tr1 Hc Hne.
    eapply try_flush_pending_until_delta_nonzero; eauto.
  - intros u m' tr H. eapply wait_for_pending_returned; eauto.
  - intros Henv Hp. now apply wait_for_pending_asleep.
Qed.

Lemma killable_and_plain_waits_witness :
  (exists r m' tr,
      run (C := Demo.layer 0) alone 0
          (FlusherSync.wait_for_commit (C := Demo.layer 0) 1 6)
          (Demo.volume 5 5 0 6 Demo.everybody) [] = Returned r m' tr /\
      (r = 0 \/ r = - ERESTARTSYS)) /\
  (exists m' tr,
      run (C := Demo.layer 0) alone 0
          (FlusherAsync.wait_for_pending (C := Demo.layer 0) 4)
          (Demo.volume 5 5 0 6 Demo.everybody) [] = Asleep m' tr).
Proof.
  destruct (killable_and_plain_waits (C := Demo.layer 0) alone 0%nat 0%nat 6
              (Demo.volume 5 5 0 6 Demo.everybody)
              (fun i m H => H) eq_refl) as (_ & _ & Hc & _).
  destruct (killable_and_plain_waits (C := Demo.layer 0) alone 0%nat 4%nat 6
              (Demo.volume 5 5 0 6 Demo.everybody)
              (fun i m H => H) eq_refl) as (_ & _ & _ & _ & _ & Hp).
  split; [exact Hc|].
  apply Hp; [intros i m H; exact H | reflexivity].
Defined.

(* ------------------------------------------------------------------ *)
(** ** The flush election *)

Section Election.
Context {T : Type} {C : Collaborators T}.

Lemma flush_calls_app (h : list (nat * op)) (tid : nat) (o : op) :
  flush_calls (h ++ [(tid, o)]) =
  (flush_calls h + match o with CallFlushDelta => 1 | _ => 0 end)%nat.
Proof.
  induction h as [| [t o'] h IH].
  - cbn. destruct o; reflexivity.
  - cbn [app flush_calls]. destruct o'; rewrite IH; reflexivity.
Qed.

Lemma tokens_replace {A : Type} (ts : list (prog A)) :
  forall tid p q,
    nth_error ts tid = Some p ->
    (tokens (replace_thread tid q ts) + flush_token p =
     tokens ts + flush_token q)%nat.
Proof.
  unfold tokens.
  induction ts as [| t ts IH]; intros [| tid] p q H; try discriminate H.
  - cbn in H. inversion H; subst. cbn. lia.
  - cbn in H. cbn [replace_thread map].
    change (list_sum (?x :: ?l)) with (x + list_sum l)%nat.
    specialize (IH tid p q H). lia.
Qed.

Lemma Forall_replace {A : Type} (P : prog A -> Prop) (ts : list (prog A)) :
  forall tid q, Forall P ts -> P q -> Forall P (replace_thread tid q ts).
Proof.
  induction ts as [| t ts IH]; intros [| tid] q H Hq; cbn; auto;
    inversion H; subst; constructor; auto.
Qed.

Lemma length_replace {A : Type} (ts : list (prog A)) :
  forall tid q, length (replace_thread tid q ts) = length ts.
Proof.
  induction ts as [| t ts IH]; intros [| tid] q; cbn; auto.
Qed.

Lemma existsb_replace_running {A : Type} (ts : list (prog A)) :
  forall tid q,
    has_returned q = false ->
    existsb has_returned (replace_thread tid q ts) = true ->
    existsb has_returned ts = true.
Proof.
  induction ts as [| t ts IH]; intros [| tid] q Hq; cbn; auto.
  - rewrite Hq. cbn. intros ->. apply orb_true_r.
  - intros H. apply orb_true_iff in H as [-> | H]; [reflexivity|].
    rewrite (IH tid q Hq H). apply orb_true_r.
Qed.

Lemma nth_error_Forall {A : Type} (P : A -> Prop) (l : list A) n x :
  Forall P l -> nth_error l n = Some x -> P x.
Proof.
  intros H Hn. rewrite Forall_forall in H. apply H.
  eapply nth_error_In; eauto.
Qed.

Lemma pending_count_le (m : machine T) : (pending_count m <= 1)%nat.
Proof. unfold pending_count. destruct (bit_is_set _ m); lia. Qed.

Lemma tokens_replace_eq {A : Type} (ts : list (prog A)) tid p q :
  nth_error ts tid = Some p ->
  tokens (replace_thread tid q ts) =
  (tokens ts + flush_token q - flush_token p)%nat.
Proof.
  intros H. pose proof (tokens_replace ts tid p q H). lia.
Qed.

Lemma tokens_nth {A : Type} (ts : list (prog A)) :
  forall tid p,
    nth_error ts tid = Some p -> (flush_token p <= tokens ts)%nat.
Proof.
  unfold tokens.
  induction ts as [| t ts IH]; intros [| tid] p H; try discriminate H;
    cbn in H; cbn [map]; change (list_sum (?x :: ?l)) with (x + list_sum l)%nat.
  - inversion H; subst. lia.
  - specialize (IH tid p H). lia.
Qed.

(** Counts the tokens after the step the goal shows. *)
Ltac token_count Hnth :=
  rewrite flush_calls_app, (tokens_replace_eq _ _ _ _ Hnth);
  pose proof (tokens_nth _ _ _ Hnth);
  cbv [flush_token FlusherSync.flush_pending_delta
       flush_pending_delta_elect bind call] in *.

Lemma election_invariant_step (b0 : nat) (tid : nat) (c : config T Z) :
  flush_keeps_pending_bit ->
  (b0 <= 1)%nat ->
  election_invariant b0 c ->
  election_invariant b0 (thread_step tid c).
Proof.
  intros Hflush Hb0 (Hreach & Hsum & Hret).
  unfold thread_step.
  destruct (nth_error (threads c) tid) as [p |] eqn:Hnth;
    [| now repeat split].
  pose proof (nth_error_Forall _ _ _ _ Hreach Hnth) as Hp.
  destruct Hp as [-> | [-> | [-> | [err ->]]]].
  - (* test_bit *)
    cbn [FlusherSync.flush_pending_delta bind call exec].
    destruct (bit_is_set TUX3_COMMIT_PENDING_BIT (shared c)) eqn:Hbit;
      cbn [negb].
    + split; [| split]; cbn [threads shared history].
      * apply Forall_replace; auto. right; left; reflexivity.
      * token_count Hnth. lia.
      * intros H. apply Hret.
        eapply existsb_replace_running; [| exact H]. reflexivity.
    + split; [| split]; cbn [threads shared history].
      * apply Forall_replace; auto. right; right; right. now exists 0.
      * token_count Hnth. lia.
      * intros _. unfold pending_count. now rewrite Hbit.
  - (* test_and_clear_bit *)
    cbn [flush_pending_delta_elect bind call exec].
    assert (Hclr : pending_count
              (set_backend_state
                 (Z.clearbit (backend_state (the_sb (shared c)))
                    (Z.of_nat TUX3_COMMIT_PENDING_BIT)) (shared c)) = 0%nat).
    { unfold pending_count. now rewrite bit_is_set_clear. }
    unfold pending_count in Hsum.
    destruct (bit_is_set TUX3_COMMIT_PENDING_BIT (shared c)).
    + split; [| split]; cbn [threads shared history].
      * apply Forall_replace; auto. right; right; left; reflexivity.
      * rewrite Hclr. token_count Hnth. lia.
      * intros _. exact Hclr.
    + split; [| split]; cbn [threads shared history].
      * apply Forall_replace; auto. right; right; right. now exists 0.
      * rewrite Hclr. token_count Hnth. lia.
      * intros _. exact Hclr.
  - (* flush_delta *)
    cbn [call exec].
    assert (Hsame : pending_count
              (set_sb (snd (flush_delta (the_sb (shared c)))) (shared c)) =
              pending_count (shared c)).
    { unfold pending_count, bit_is_set. cbn. now rewrite Hflush. }
    pose proof (pending_count_le (shared c)) as Hle.
    split; [| split]; cbn [threads shared history].
    + apply Forall_replace; auto. right; right; right. eauto.
    + rewrite Hsame. token_count Hnth. lia.
    + intros _. rewrite Hsame.
      pose proof (tokens_nth _ _ _ Hnth) as Ht. cbn in Ht. lia.
  - (* returned *)
    now repeat split.
Qed.

Lemma election_invariant_run (b0 : nat) (sched : list nat) :
  flush_keeps_pending_bit ->
  (b0 <= 1)%nat ->
  forall c, election_invariant b0 c ->
            election_invariant b0 (run_schedule sched c).
Proof.
  intros Hflush Hb0. induction sched as [| tid sched IH]; intros c Hc.
  - exact Hc.
  - cbn. apply IH. now apply election_invariant_step.
Qed.

Lemma length_run_schedule (sched : list nat) :
  forall c : config T Z,
    length (threads (run_schedule sched c)) = length (threads c).
Proof.
  induction sched as [| tid sched IH]; intros c; [reflexivity|].
  cbn. rewrite IH. unfold thread_step.
  destruct (nth_error (threads c) tid) as [[a | o k |] |]; try reflexivity.
  destruct (exec tid o (shared c)); try reflexivity.
  cbn. apply length_replace.
Qed.

Lemma all_returned (ts : list (prog Z)) :
  forallb has_returned ts = true ->
  tokens ts = 0%nat /\ (ts <> [] -> existsb has_returned ts = true).
Proof.
  unfold tokens. induction ts as [| t ts IH]; cbn [forallb existsb map].
  - intros _. split; [reflexivity | intros H; now elim H].
  - intros H. apply andb_true_iff in H as [Ht Hts].
    destruct (IH Hts) as [IH1 _].
    change (list_sum (?x :: ?l)) with (x + list_sum l)%nat.
    rewrite IH1, Ht.
    split; [| reflexivity].
    destruct t as [a | o k |]; try discriminate Ht. reflexivity.
Qed.

End Election.

Lemma election_invariant_start {T : Type} {C : Collaborators T}
    (N : nat) (m : machine T) :
  election_invariant (pending_count m)
    (mk_config (repeat FlusherSync.flush_pending_delta N) m []).
Proof.
  unfold election_invariant. cbn [threads shared history flush_calls].
  split; [| split].
  - apply Forall_forall. intros p Hp. apply repeat_spec in Hp. subst.
    left; reflexivity.
  - assert (H : tokens (repeat (FlusherSync.flush_pending_delta (C := C)) N)
               = 0%nat).
    { unfold tokens. induction N as [| N IH]; [reflexivity|].
      cbn [repeat map].
      change (list_sum (?x :: ?l)) with (x + list_sum l)%nat.
      rewrite IH. reflexivity. }
    rewrite H. lia.
  - intros H. exfalso.
    assert (Hn : existsb has_returned
                   (repeat (FlusherSync.flush_pending_delta (C := C)) N)
                 = false).
    { clear H. induction N as [| N IH]; [reflexivity|].
      cbn [repeat existsb]. rewrite IH. reflexivity. }
    rewrite Hn in H. discriminate H.
Qed.

(** C1, as the claim has it, fails: two threads in [tux3_writeback] both
    find [TUX3_COMMIT_PENDING_BIT] set by [test_bit] before either clears
    it with [clear_bit], and each calls [flush_delta] for the one pending
    delta. *)
Lemma tux3_writeback_flushes_twice :
  let c := run_schedule (C := Demo.layer 0)
             [0; 0; 0; 0; 0; 0; 0; 0; 1; 1; 1; 1; 1; 1; 1; 1;
              0; 0; 0; 1; 1; 1]%nat
             (mk_config [FlusherAsync.tux3_writeback (C := Demo.layer 0) 0;
                         FlusherAsync.tux3_writeback (C := Demo.layer 0) 0]
                        (Demo.volume 6 5 3 6 Demo.nobody) []) in
  flush_calls (history c) = 2%nat /\
  threads c = [Ret 1; Ret 1] /\
  history c =
    [(0, ReadSFlags); (0, CallDeltaGet); (0, CallDeltaPut (mk_delta_ref 6));
     (0, ReadStagingDelta); (0, ReadStagingDelta); (0, Assert true);
     (0, TestBit 1); (0, TestBit 1);
     (1, ReadSFlags); (1, CallDeltaGet); (1, CallDeltaPut (mk_delta_ref 6));
     (1, ReadStagingDelta); (1, ReadStagingDelta); (1, Assert true);
     (1, TestBit 1); (1, TestBit 1);
     (0, ClearBit 1); (0, CallFlushDelta); (0, StoreNrPages 0);
     (1, ClearBit 1); (1, CallFlushDelta); (1, StoreNrPages 0)]%nat.
Proof.
  cbv zeta. split; [| split]; reflexivity.
Qed.

(** C1, amended: in the sync flusher, where [TUX3_COMMIT_PENDING_BIT] is
    given up by [test_and_clear_bit] alone, any number of threads running
    [flush_pending_delta] under any schedule call [flush_delta] at most once
    for a pending delta and not at all without one, and exactly once when
    all of them have returned, provided [flush_delta] leaves the bit as it
    finds it.  ([tux3_writeback] of the async flusher tests and clears the
    bit in two accesses and has no such guarantee.) *)
Theorem flush_pending_delta_elects_one {T : Type} {C : Collaborators T}
    (N : nat) (m : machine T) (sched : list nat)
    (Hflush : flush_keeps_pending_bit) :
  let c := run_schedule sched
             (mk_config (repeat FlusherSync.flush_pending_delta N) m []) in
  (flush_calls (history c) <= pending_count m)%nat /\
  (pending_count m <= 1)%nat /\
  ((1 <= N)%nat -> forallb has_returned (threads c) = true ->
   flush_calls (history c) = pending_count m).
Proof.
  intros c.
  pose proof (pending_count_le m) as Hle.
  destruct (election_invariant_run (pending_count m) sched Hflush Hle _
              (election_invariant_start N m)) as (Hreach & Hsum & Hret).
  fold c in Hreach, Hsum, Hret.
  split; [lia|]. split; [exact Hle|].
  intros HN Hall.
  destruct (all_returned _ Hall) as [Htok Hex].
  assert (Hne : threads c <> []).
  { intros E. apply (f_equal (@length _)) in E.
    unfold c in E. rewrite length_run_schedule in E.
    cbn in E. rewrite repeat_length in E. lia. }
  rewrite (Hret (Hex Hne)), Htok in Hsum. lia.
Qed.

Lemma flush_pending_delta_elects_one_witness :
  flush_calls
    (history
       (run_schedule (C := Demo.layer 0) [0; 1; 2; 0; 1; 2; 0; 1; 2]%nat
          (mk_config
             (repeat (FlusherSync.flush_pending_delta (C := Demo.layer 0)) 3)
             (Demo.volume 6 5 3 6 Demo.nobody) []))) = 1%nat.
Proof.
  apply (flush_pending_delta_elects_one (C := Demo.layer 0) 3
           (Demo.volume 6 5 3 6 Demo.nobody) [0; 1; 2; 0; 1; 2; 0; 1; 2]%nat).
  - intros s.
    change (Z.testbit (Z.clearbit (backend_state s) 0) 1 =
            Z.testbit (backend_state s) 1).
    apply Z.clearbit_neq. discriminate.
  - lia.
  - reflexivity.
Defined.

(* ------------------------------------------------------------------ *)
(** ** What the waits never do *)

Section OnlyOps.
Context {T : Type} {C : Collaborators T}.

Lemma only_ops_bind {A B : Type} (P : op -> Prop) (p : prog A)
    (f : A -> prog B) :
  only_ops P p -> (forall a, only_ops P (f a)) -> only_ops P (bind p f).
Proof.
  intros Hp Hf. induction p as [a | o k IH |]; cbn [bind only_ops] in *.
  - apply Hf.
  - destruct Hp as [Ho Hk]. split; [exact Ho|]. intros v. apply IH, Hk.
  - exact I.
Qed.

Lemma only_ops_weaken {A : Type} (P Q : op -> Prop) (p : prog A) :
  (forall o, P o -> Q o) -> only_ops P p -> only_ops Q p.
Proof.
  intros HPQ. induction p as [a | o k IH |]; cbn [only_ops]; auto.
  intros [Ho Hk]. split; auto.
Qed.

Lemma only_ops_run {A : Type} (P : op -> Prop) (env : environment T)
    (tid : nat) (p : prog A) :
  only_ops P p ->
  forall m tr, Forall P tr -> Forall P (trace_of (run env tid p m tr)).
Proof.
  induction p as [a | o k IH |]; intros Hp m tr Htr; cbn [run trace_of];
    try exact Htr.
  destruct Hp as [Ho Hk].
  destruct (exec tid o (env (length tr) m)) as [v m2 | |]; cbn [trace_of];
    try exact Htr.
  apply IH; [apply Hk|]. apply Forall_app. split; [exact Htr|].
  constructor; [exact Ho | constructor].
Qed.

Lemma only_ops_wait_event_killable (P : op -> Prop) (condition : prog Z) :
  only_ops P condition -> P FatalSignalPending -> P Schedule ->
  forall n, only_ops P (wait_event_killable n condition).
Proof.
  intros Hc Hs Hw.
  assert (Hloop : forall n, only_ops P (__wait_event_killable n condition)).
  { induction n as [| n IH]; [exact I|].
    cbn [__wait_event_killable]. apply only_ops_bind; [exact Hc|].
    intros c. destruct (c =? 0); [| exact I].
    cbn [bind call only_ops]. split; [exact Hs|].
    intros [|]; [exact I|]. cbn [bind call only_ops].
    split; [exact Hw|]. intros _. exact IH. }
  intros n. unfold wait_event_killable. apply only_ops_bind; [exact Hc|].
  intros c. destruct (c =? 0); [apply Hloop | exact I].
Qed.

Lemma only_ops_wait_event (P : op -> Prop) (condition : prog Z) :
  only_ops P condition -> P Schedule ->
  forall n, only_ops P (wait_event n condition).
Proof.
  intros Hc Hw.
  assert (Hloop : forall n, only_ops P (__wait_event n condition)).
  { induction n as [| n IH]; [exact I|].
    cbn [__wait_event]. apply only_ops_bind; [exact Hc|].
    intros c. destruct (c =? 0); [| exact I].
    cbn [bind call only_ops]. split; [exact Hw|]. intros _. exact IH. }
  intros n. unfold wait_event. apply only_ops_bind; [exact Hc|].
  intros c. destruct (c =? 0); [apply Hloop | exact I].
Qed.

Lemma try_delta_transition_until_delta_ops (d : Z) :
  only_ops transition_op (FlusherSync.try_delta_transition_until_delta d).
Proof.
  unfold FlusherSync.try_delta_transition_until_delta.
  cbn [bind call only_ops transition_op].
  split; [exact I|]. intros s. destruct (delta_after_eq s d); [exact I|].
  cbn [bind call only_ops transition_op]. split; [reflexivity|].
  intros [|]; cbn [negb bind call only_ops transition_op].
  - split; [exact I|]. intros s2. exact I.
  - split; [exact I|]. intros s1. destruct (delta_after_eq s1 d);
      cbn [bind call only_ops transition_op].
    + split; [reflexivity|]. intros _. exact I.
    + split; [exact I|]. intros _. split; [exact I|]. intros s2. exact I.
Qed.

Lemma wait_for_transition_ops (n : nat) (d : Z) :
  only_ops transition_op (FlusherSync.wait_for_transition n d).
Proof.
  apply only_ops_wait_event_killable; try exact I.
  apply try_delta_transition_until_delta_ops.
Qed.

Lemma flush_pending_delta_ops :
  only_ops commit_op FlusherSync.flush_pending_delta.
Proof.
  unfold FlusherSync.flush_pending_delta.
  cbn [bind call only_ops commit_op]. split; [reflexivity|].
  intros [|]; cbn [negb bind call only_ops commit_op]; [| exact I].
  split; [reflexivity|].
  intros [|]; cbn [bind call only_ops commit_op]; [| exact I].
  split; [exact I|]. intros e. exact I.
Qed.

Lemma try_flush_pending_until_delta_ops (d : Z) :
  only_ops commit_op (FlusherSync.try_flush_pending_until_delta d).
Proof.
  unfold FlusherSync.try_flush_pending_until_delta.
  cbn [bind call only_ops commit_op]. split; [exact I|]. intros c.
  apply only_ops_bind.
  - destruct (negb (delta_after_eq c d)); [| exact I].
    apply only_ops_bind; [apply flush_pending_delta_ops | intros; exact I].
  - intros _. cbn [bind call only_ops commit_op]. split; [exact I|].
    intros c1. exact I.
Qed.

Lemma wait_for_commit_ops (n : nat) (d : Z) :
  only_ops commit_op (FlusherSync.wait_for_commit n d).
Proof.
  apply only_ops_wait_event_killable; try exact I.
  apply try_flush_pending_until_delta_ops.
Qed.

End OnlyOps.

(** X1: whatever the other threads do and however it ends,
    [wait_for_transition] (in both configurations) only reads
    [staging_delta], test-and-sets or clears [TUX3_COMMIT_RUNNING_BIT], calls
    [delta_transition], looks for a fatal signal and sleeps: it never calls
    [flush_delta], never takes a semaphore and never touches another
    bit. *)
Theorem wait_for_transition_stays_on_its_side
    {T : Type} {C : Collaborators T}
    (env : environment T) (tid n : nat) (d : Z) (m : machine T) :
  Forall transition_op
    (trace_of (run env tid (FlusherSync.wait_for_transition n d) m [])) /\
  Forall transition_op
    (trace_of (run env tid (FlusherAsync.wait_for_transition n d) m [])).
Proof.
  split.
  - apply only_ops_run; [apply wait_for_transition_ops | constructor].
  - apply only_ops_run; [| constructor].
    rewrite async_wait_for_transition. apply wait_for_transition_ops.
Qed.

(** X2: whatever the other threads do and however it ends,
    [wait_for_commit] only reads [committed_delta], tests or
    test-and-clears [TUX3_COMMIT_PENDING_BIT], calls [flush_delta], looks
    for a fatal signal and sleeps: it never calls [delta_transition], never
    takes a semaphore and never sets a bit. *)
Theorem wait_for_commit_stays_on_its_side
    {T : Type} {C : Collaborators T}
    (env : environment T) (tid n : nat) (d : Z) (m : machine T) :
  Forall commit_op
    (trace_of (run env tid (FlusherSync.wait_for_commit n d) m [])).
Proof.
  apply only_ops_run; [apply wait_for_commit_ops | constructor].
Qed.

(* ------------------------------------------------------------------ *)
(** ** What sync_current_delta can return *)

Lemma wait_for_commit_codes {T : Type} {C : Collaborators T}
    (env : environment T) (tid n : nat) (d : Z) m tr r m' tr' :
  run env tid (FlusherSync.wait_for_commit n d) m tr = Returned r m' tr' ->
  r = 0 \/ r = - ERESTARTSYS.
Proof.
  intros H.
  destruct (wait_event_killable_returned env tid
              (FlusherSync.try_flush_pending_until_delta d)
              (fun _ => True) (fun _ _ _ _ _ _ _ => I) n m tr r m' tr' H)
    as [[-> _] | [-> _]]; auto.
Qed.

(** X3: in the sync flusher, whatever the storage layer and the other
    threads do, a call of [sync_current_delta] that returns returns 0 or
    [-ERESTARTSYS] and nothing else; what [flush_delta] returned is never
    handed on. *)
Theorem sync_current_delta_return_codes {T : Type} {C : Collaborators T}
    (env : environment T) (tid n : nat) (unify_flag : unify_flags)
    (m m' : machine T) (r : Z) (tr : list op) :
  run env tid (FlusherSync.sync_current_delta n unify_flag) m []
    = Returned r m' tr ->
  r = 0 \/ r = - ERESTARTSYS.
Proof.
  intros H.
  unfold FlusherSync.sync_current_delta in H.
  cbn [bind call run exec length] in H.
  match type of H with context [if ?b then Block else _] => destruct b end;
    [discriminate H|].
  cbn [bind call run exec length app] in H.
  apply run_bind_returned in H as (err & m2 & tr2 & Hw & H).
  rewrite <- async_wait_for_transition in Hw.
  apply wait_for_transition_codes in Hw as [-> | [-> _]];
    cbn [negb Z.eqb bind call run exec] in H.
  2:{ inversion H; subst. now right. }
  match type of H with context [Assert ?b] => destruct b end;
    [| discriminate H].
  cbn [bind call run exec] in H.
  apply run_bind_returned in H as (err1 & m3 & tr3 & Hw & H).
  apply wait_for_commit_codes in Hw as [-> | ->];
    cbn [negb Z.eqb bind call run exec] in H.
  - match type of H with context [Assert ?b] => destruct b end;
      [| discriminate H].
    cbn [bind call run exec] in H. inversion H; subst. now left.
  - cbn in H. inversion H; subst. now right.
Qed.

Lemma sync_current_delta_return_codes_witness :
  - ERESTARTSYS = 0 \/ - ERESTARTSYS = - ERESTARTSYS.
Proof.
  apply (sync_current_delta_return_codes (C := Demo.failing_layer (- Demo.EIO))
           alone 0%nat 3%nat ALLOW_UNIFY
           (Demo.volume 5 5 0 6 Demo.everybody)
           (set_delta_lock rwsem_free
              (mk_machine (mk_sb 6 5 1 rwsem_free 7)
                          rwsem_free MS_ACTIVE 7 Demo.everybody))
           (- ERESTARTSYS)
           [DownWriteDeltaLock; CallDeltaGet; CallDeltaPut (mk_delta_ref 6);
            ReadStagingDelta; TestAndSetBit 0; ReadStagingDelta;
            CallDeltaTransition; ReadStagingDelta; ReadStagingDelta;
            Assert true; ReadCommittedDelta; TestBit 1; TestAndClearBit 1;
            CallFlushDelta; ReadCommittedDelta; ReadCommittedDelta; TestBit 1;
            ReadCommittedDelta; FatalSignalPending; UpWriteDeltaLock]).
  reflexivity.
Defined.

(* ------------------------------------------------------------------ *)
(** ** How often a call flushes *)

Section AtMost.
Context {T : Type} {C : Collaborators T}.

Lemma at_most_mono {A : Type} (f : op -> bool) (p : prog A) :
  forall n n', (n <= n')%nat -> at_most f n p -> at_most f n' p.
Proof.
  induction p as [a | o k IH |]; intros n n' Hle H; cbn [at_most] in *; auto.
  destruct (f o).
  - destruct n as [| n]; [now elim H|].
    destruct n' as [| n']; [lia|].
    intros v. apply (IH v n n'); [lia | apply H].
  - intros v. apply (IH v n n'); [lia | apply H].
Qed.

Lemma at_most_bind {A B : Type} (f : op -> bool) (p : prog A)
    (g : A -> prog B) :
  forall a b,
    at_most f a p -> (forall x, at_most f b (g x)) ->
    at_most f (a + b) (bind p g).
Proof.
  induction p as [x | o k IH |]; intros a b Hp Hg; cbn [bind at_most] in *.
  - apply at_most_mono with (n := b); [lia | apply Hg].
  - destruct (f o).
    + destruct a as [| a]; [now elim Hp|].
      cbn [Nat.add]. intros v. apply IH; auto.
    + intros v. apply IH; auto.
  - exact I.
Qed.

Lemma only_ops_at_most {A : Type} (f : op -> bool) (p : prog A) :
  only_ops (fun o => f o = false) p -> at_most f 0 p.
Proof.
  induction p as [a | o k IH |]; cbn [only_ops at_most]; auto.
  intros [Ho Hk]. rewrite Ho. intros v. apply IH, Hk.
Qed.

Lemma count_ops_app (f : op -> bool) (tr : list op) (o : op) :
  count_ops f (tr ++ [o]) = (count_ops f tr + if f o then 1 else 0)%nat.
Proof.
  unfold count_ops. rewrite filter_app, length_app. cbn [filter].
  destruct (f o); reflexivity.
Qed.

Lemma at_most_run {A : Type} (f : op -> bool) (env : environment T)
    (tid : nat) (p : prog A) :
  forall n m tr,
    at_most f n p ->
    (count_ops f (trace_of (run env tid p m tr)) <= count_ops f tr + n)%nat.
Proof.
  induction p as [a | o k IH |]; intros n m tr Hp; cbn [run trace_of];
    try lia.
  destruct (exec tid o (env (length tr) m)) as [v m2 | |]; cbn [trace_of];
    try lia.
  cbn [at_most] in Hp. destruct (f o) eqn:Hfo.
  - destruct n as [| n]; [now elim Hp|].
    specialize (IH v n m2 (tr ++ [o]) (Hp v)).
    rewrite count_ops_app, Hfo in IH. lia.
  - specialize (IH v n m2 (tr ++ [o]) (Hp v)).
    rewrite count_ops_app, Hfo in IH. lia.
Qed.

Lemma wait_for_transition_no_flush (n : nat) (d : Z) :
  at_most is_flush 0 (FlusherAsync.wait_for_transition n d).
Proof.
  apply only_ops_at_most.
  apply only_ops_weaken with (P := transition_op).
  - intros [] H; try reflexivity; now elim H.
  - rewrite async_wait_for_transition. apply wait_for_transition_ops.
Qed.

Lemma wait_for_pending_no_flush (n : nat) :
  at_most is_flush 0 (FlusherAsync.wait_for_pending n).
Proof.
  apply only_ops_at_most. apply only_ops_wait_event; [| reflexivity].
  cbn [bind call only_ops]. split; [reflexivity|]. intros b. exact I.
Qed.

Lemma tux3_writeback_at_most_one_flush (n : nat) :
  at_most is_flush 1 (FlusherAsync.tux3_writeback n).
Proof.
  unfold FlusherAsync.tux3_writeback.
  cbn [bind call at_most is_flush]. intros flags.
  destruct (Z.land flags MS_ACTIVE =? 0); [exact I|].
  cbn [bind call at_most is_flush]. intros r _.
  apply (at_most_bind is_flush _ _ 0 1);
    [apply wait_for_transition_no_flush|].
  intros err. destruct (negb (err =? 0)); [exact I|].
  cbn [bind call at_most is_flush]. intros s _.
  apply (at_most_bind is_flush _ _ 0 1); [apply wait_for_pending_no_flush|].
  intros _. cbn [bind call at_most is_flush].
  intros [|]; cbn [bind call at_most is_flush]; intros; exact I.
Qed.

Lemma count_ops_in (f : op -> bool) (o : op) (tr : list op) :
  f o = true -> In o tr -> (1 <= count_ops f tr)%nat.
Proof.
  intros Hf Hin. unfold count_ops.
  assert (H : In o (filter f tr)) by (apply filter_In; auto).
  destruct (filter f tr); [now elim H | cbn; lia].
Qed.

Lemma tux3_writeback_alone_flushed (tid n : nat) (m m' : machine T) tr :
  run alone tid (FlusherAsync.tux3_writeback n) m [] = Returned 1 m' tr ->
  exists pre,
    tr = pre ++ [ClearBit TUX3_COMMIT_PENDING_BIT; CallFlushDelta;
                 StoreNrPages 0].
Proof.
  intros H. unfold FlusherAsync.tux3_writeback in H.
  cbn [bind call run exec length] in H.
  destruct (Z.land (s_flags (alone 0%nat m)) MS_ACTIVE =? 0);
    [discriminate H|].
  cbn [bind call run exec] in H.
  apply run_bind_returned in H as (err & m1 & tr1 & Hw & H).
  apply wait_for_transition_codes in Hw as [-> | [-> Hk]].
  2:{ cbn in H. inversion H. }
  cbn [negb Z.eqb bind call run exec] in H.
  match type of H with context [Assert ?b] => destruct b end;
    [| discriminate H].
  cbn [bind call run exec] in H.
  apply run_bind_returned in H as ([] & m2 & tr2 & Hp & H).
  apply wait_for_pending_returned in Hp.
  cbn [bind call run exec] in H.
  change (alone (length tr2) m2) with m2 in H. rewrite Hp in H.
  cbn [bind call run exec] in H. inversion H; subst.
  exists (tr2 ++ [TestBit TUX3_COMMIT_PENDING_BIT]).
  rewrite <- !app_assoc. reflexivity.
Qed.

End AtMost.

(** X4: a call of [tux3_writeback] calls [flush_delta] at most once,
    whatever the other threads do and however the call ends; run with no
    other thread, a call that returns 1 has cleared
    [TUX3_COMMIT_PENDING_BIT], called [flush_delta] exactly once and stored
    0 to [*nr_pages], in this order, as its last three accesses (so it
    returns 1 whatever [flush_delta] returned). *)
Theorem tux3_writeback_flushes_once {T : Type} {C : Collaborators T}
    (tid n : nat) (m : machine T) :
  (forall env : environment T,
      (count_ops is_flush
         (trace_of (run env tid (FlusherAsync.tux3_writeback n) m [])) <= 1)%nat)
  /\
  (forall m' tr,
      run alone tid (FlusherAsync.tux3_writeback n) m [] = Returned 1 m' tr ->
      count_ops is_flush tr = 1%nat /\
      exists pre,
        tr = pre ++ [ClearBit TUX3_COMMIT_PENDING_BIT; CallFlushDelta;
                     StoreNrPages 0]).
Proof.
  assert (Hle : forall env : environment T,
    (count_ops is_flush
       (trace_of (run env tid (FlusherAsync.tux3_writeback n) m [])) <= 1)%nat).
  { intros env.
    apply (at_most_run is_flush env tid _ 1 m []).
    apply tux3_writeback_at_most_one_flush. }
  split; [exact Hle|].
  intros m' tr H.
  destruct (tux3_writeback_alone_flushed tid n m m' tr H) as (pre & Hpre).
  split; [| now exists pre].
  specialize (Hle alone). rewrite H in Hle. cbn [trace_of] in Hle.
  assert (Hge : (1 <= count_ops is_flush tr)%nat).
  { apply count_ops_in with (o := CallFlushDelta); [reflexivity|].
    rewrite Hpre. apply in_or_app. right. cbn. auto. }
  lia.
Qed.

Lemma tux3_writeback_flushes_once_witness :
  count_ops is_flush
    [ReadSFlags; CallDeltaGet; CallDeltaPut (mk_delta_ref 6);
     ReadStagingDelta; ReadStagingDelta; Assert true; TestBit 1; TestBit 1;
     ClearBit 1; CallFlushDelta; StoreNrPages 0] = 1%nat.
Proof.
  apply (proj2 (tux3_writeback_flushes_once (C := Demo.layer (- Demo.EIO))
                  0%nat 0%nat (Demo.volume 6 5 3 6 Demo.nobody))
           (set_nr_pages 0
              (mk_machine (mk_sb 6 6 0 rwsem_free 6)
                          rwsem_free MS_ACTIVE 7 Demo.nobody))).
  reflexivity.
Defined.

(* ------------------------------------------------------------------ *)
(** ** sync_current_delta, TUX3_FLUSHER_SYNC: one caller at a time *)

Section Serial.
Context {T : Type} {C : Collaborators T}.

Lemma lock_discipline_bind {A B : Type} (p : prog A) (f : A -> prog B) :
  forall held,
    only_ops (fun o => is_lock_op o = false) p ->
    (forall a, lock_discipline held (f a)) ->
    lock_discipline held (bind p f).
Proof.
  induction p as [a | o k IH |]; intros held Hp Hf;
    cbn [bind lock_discipline only_ops] in *; auto.
  destruct Hp as [Ho Hk].
  destruct o; try discriminate Ho; (split; [exact I|]); intros x;
    cbn [holds_after]; apply IH; auto.
Qed.

Lemma wait_for_transition_no_lock (n : nat) (d : Z) :
  only_ops (fun o => is_lock_op o = false)
           (FlusherSync.wait_for_transition n d).
Proof.
  apply only_ops_weaken with (P := transition_op).
  - intros [] H; try reflexivity; now elim H.
  - apply wait_for_transition_ops.
Qed.

Lemma wait_for_commit_no_lock (n : nat) (d : Z) :
  only_ops (fun o => is_lock_op o = false) (FlusherSync.wait_for_commit n d).
Proof.
  apply only_ops_weaken with (P := commit_op).
  - intros [] H; try reflexivity; now elim H.
  - apply wait_for_commit_ops.
Qed.

Lemma sync_current_delta_lock_discipline (n : nat) (unify_flag : unify_flags) :
  lock_discipline false (FlusherSync.sync_current_delta n unify_flag).
Proof.
  unfold FlusherSync.sync_current_delta.
  cbn [bind call lock_discipline holds_after].
  split; [reflexivity|]. intros _. split; [exact I|]. intros r.
  split; [exact I|]. intros _.
  apply lock_discipline_bind; [apply wait_for_transition_no_lock|].
  intros err. destruct (negb (err =? 0)); [exact I|].
  cbn [bind call lock_discipline holds_after].
  split; [exact I|]. intros s. split; [exact I|]. intros _.
  apply lock_discipline_bind; [apply wait_for_commit_no_lock|].
  intros err1. apply lock_discipline_bind.
  - destruct (negb (err1 =? 0)); [exact I|].
    cbn [bind call only_ops is_lock_op]. split; [reflexivity|].
    intros c. split; [reflexivity|]. intros _. exact I.
  - intros _. cbn [bind call lock_discipline holds_after].
    split; [reflexivity|]. intros _. exact I.
Qed.

Lemma exec_keeps_delta_lock (tid : nat) (o : op) (m m' : machine T)
    (v : ret o) :
  keeps_delta_lock ->
  is_lock_op o = false ->
  exec tid o m = Ok v m' ->
  delta_lock (the_sb m') = delta_lock (the_sb m).
Proof.
  intros (Hget & Hput & Htr & Hfl & Hsy) Ho H.
  destruct o; try discriminate Ho; cbn in H;
    try (destruct (writer (s_umount m)); [discriminate H|]);
    try (destruct c; [| discriminate H]);
    inversion H; subst; cbn; auto.
Qed.

Lemma lock_step_other (owner : option nat) (tid : nat) (o : op) :
  is_lock_op o = false ->
  lock_step (Some owner) (tid, o) = Some owner.
Proof.
  intros Ho. unfold lock_step. cbn [fst snd].
  destruct o; try discriminate Ho; destruct owner; reflexivity.
Qed.

Lemma holds_after_other (o : op) (held : bool) :
  is_lock_op o = false -> holds_after o held = held.
Proof. intros Ho. destruct o; try discriminate Ho; reflexivity. Qed.

Lemma lock_owner_app (h : list (nat * op)) (e : nat * op) :
  lock_owner (h ++ [e]) = lock_step (lock_owner h) e.
Proof. unfold lock_owner. rewrite fold_left_app. reflexivity. Qed.

Lemma nth_error_replace {A : Type} (ts : list (prog A)) :
  forall tid q i p,
    nth_error (replace_thread tid q ts) i = Some p ->
    (i = tid /\ p = q) \/ (i <> tid /\ nth_error ts i = Some p).
Proof.
  induction ts as [| t ts IH]; intros [| tid] q [| i] p H; cbn in H;
    try discriminate H.
  - inversion H. now left.
  - right. split; [discriminate | exact H].
  - right. split; [discriminate | exact H].
  - destruct (IH tid q i p H) as [[-> ->] | [Hne Hn]]; [now left|].
    right. split; [congruence | exact Hn].
Qed.

Lemma owner_is_true (i : nat) (owner : option nat) :
  owner_is i owner = true -> owner = Some i.
Proof.
  destruct owner as [t |]; cbn; [| discriminate].
  intros H. apply Nat.eqb_eq in H. now subst.
Qed.

Lemma serial_invariant_step {A : Type} (tid : nat) (c : config T A) :
  keeps_delta_lock ->
  serial_invariant c -> serial_invariant (thread_step tid c).
Proof.
  intros Hkeep (owner & Hown & Hlock & Hthreads).
  unfold thread_step.
  destruct (nth_error (threads c) tid) as [[a | o k |] |] eqn:Hnth;
    try (exists owner; now repeat split).
  destruct (exec tid o (shared c)) as [v m' | |] eqn:Hexec;
    try (exists owner; now repeat split).
  pose proof (Hthreads tid _ Hnth) as Hd. cbn [lock_discipline] in Hd.
  destruct Hd as [Hcond Hk].
  destruct (is_lock_op o) eqn:Hop.
  - destruct o; try discriminate Hop; cbn in Hexec.
    + (* down_write *)
      rewrite Hlock in Hexec. cbn [writer readers] in Hexec.
      destruct owner as [t |]; cbn in Hexec; [discriminate Hexec|].
      inversion Hexec; subst. clear Hexec.
      exists (Some tid). cbn [history shared threads].
      rewrite lock_owner_app, Hown. split; [reflexivity|].
      split; [reflexivity|].
      intros i p Hp. apply nth_error_replace in Hp as [[-> ->] | [Hne Hp]].
      * cbn [owner_is]. rewrite Nat.eqb_refl. apply (Hk tt).
      * cbn [owner_is]. apply Nat.eqb_neq in Hne.
        rewrite Nat.eqb_sym, Hne. apply (Hthreads i p Hp).
    + (* up_write *)
      apply owner_is_true in Hcond. subst owner.
      inversion Hexec; subst. clear Hexec.
      exists None. cbn [history shared threads].
      rewrite lock_owner_app, Hown. cbn [lock_step fst snd].
      rewrite Nat.eqb_refl. split; [reflexivity|].
      split; [cbn; now rewrite Hlock|].
      intros i p Hp. apply nth_error_replace in Hp as [[-> ->] | [Hne Hp]].
      * apply (Hk tt).
      * specialize (Hthreads i p Hp). cbn [owner_is] in *.
        apply Nat.eqb_neq in Hne. rewrite Nat.eqb_sym, Hne in Hthreads.
        exact Hthreads.
  - exists owner. cbn [history shared threads].
    rewrite lock_owner_app, Hown, (lock_step_other _ _ _ Hop).
    split; [reflexivity|].
    split.
    + rewrite (exec_keeps_delta_lock _ _ _ _ _ Hkeep Hop Hexec). exact Hlock.
    + intros i p Hp. apply nth_error_replace in Hp as [[-> ->] | [Hne Hp]].
      * specialize (Hk v). rewrite (holds_after_other _ _ Hop) in Hk.
        exact Hk.
      * apply (Hthreads i p Hp).
Qed.

Lemma serial_invariant_run {A : Type} (sched : list nat) :
  keeps_delta_lock ->
  forall c : config T A,
    serial_invariant c -> serial_invariant (run_schedule sched c).
Proof.
  intros Hkeep. induction sched as [| tid sched IH]; intros c Hc.
  - exact Hc.
  - cbn. apply IH. now apply serial_invariant_step.
Qed.

End Serial.

(** X5: in the sync flusher, with [delta_lock] free at the start and a
    storage layer that leaves the lock alone, any number of threads calling
    [sync_current_delta] under any schedule are serialized: in the history
    no thread takes [delta_lock] while another holds it and none releases
    it without holding it, and the lock is held for writing exactly while
    the history has an owner. *)
Theorem sync_current_delta_serialized {T : Type} {C : Collaborators T}
    (calls : list (nat * unify_flags)) (m : machine T) (sched : list nat)
    (Hkeep : keeps_delta_lock)
    (Hfree : delta_lock (the_sb m) = rwsem_free) :
  let c := run_schedule sched
             (mk_config
                (map (fun a => FlusherSync.sync_current_delta (fst a) (snd a))
                     calls) m []) in
  exists owner,
    lock_owner (history c) = Some owner /\
    delta_lock (the_sb (shared c)) =
      mk_rwsem (match owner with Some _ => true | None => false end) 0.
Proof.
  intros c.
  destruct (serial_invariant_run sched Hkeep
              (mk_config
                 (map (fun a => FlusherSync.sync_current_delta (fst a) (snd a))
                      calls) m [])) as (owner & Hown & Hlock & _).
  - exists None. cbn [history shared threads]. split; [reflexivity|].
    split; [exact Hfree|].
    intros i p Hp. apply nth_error_In in Hp. apply in_map_iff in Hp.
    destruct Hp as ((n & flag) & <- & _). cbn [owner_is fst snd].
    apply sync_current_delta_lock_discipline.
  - exists owner. split; assumption.
Qed.

Lemma sync_current_delta_serialized_witness :
  exists owner,
    lock_owner
      (history
         (run_schedule (C := Demo.layer 0)
            [0; 1; 0; 0; 1; 0; 0; 0; 0; 1; 0; 0; 0; 0; 0; 0; 0; 0; 0; 0; 0; 0;
             1; 1; 1]%nat
            (mk_config
               (map (fun a => FlusherSync.sync_current_delta
                                (C := Demo.layer 0) (fst a) (snd a))
                    [(1%nat, ALLOW_UNIFY); (1%nat, NO_UNIFY)])
               (Demo.volume 5 5 0 6 Demo.nobody) []))) = Some owner /\
    delta_lock
      (the_sb
         (shared
            (run_schedule (C := Demo.layer 0)
               [0; 1; 0; 0; 1; 0; 0; 0; 0; 1; 0; 0; 0; 0; 0; 0; 0; 0; 0; 0; 0;
                0; 1; 1; 1]%nat
               (mk_config
                  (map (fun a => FlusherSync.sync_current_delta
                                   (C := Demo.layer 0) (fst a) (snd a))
                       [(1%nat, ALLOW_UNIFY); (1%nat, NO_UNIFY)])
                  (Demo.volume 5 5 0 6 Demo.nobody) [])))) =
      mk_rwsem (match owner with Some _ => true | None => false end) 0.
Proof.
  apply (sync_current_delta_serialized (C := Demo.layer 0)
           [(1%nat, ALLOW_UNIFY); (1%nat, NO_UNIFY)]
           (Demo.volume 5 5 0 6 Demo.nobody)).
  - repeat split.
  - reflexivity.
Defined.

Example lock_owner_detects_overlap :
  lock_owner [(0%nat, DownWriteDeltaLock); (1%nat, DownWriteDeltaLock)] = None /\
  lock_owner [(0%nat, DownWriteDeltaLock); (1%nat, UpWriteDeltaLock)] = None /\
  lock_owner [(0%nat, DownWriteDeltaLock); (0%nat, UpWriteDeltaLock);
              (1%nat, DownWriteDeltaLock)] = Some (Some 1%nat).
Proof. repeat split. Qed.

(* ------------------------------------------------------------------ *)
(** ** The transition election *)

Section Driver.
Context {T : Type} {C : Collaborators T}.

Lemma running_discipline_bind {A B : Type} (p : prog A) (f : A -> prog B) :
  forall held,
    running_discipline held p ->
    (forall a, running_discipline false (f a)) ->
    running_discipline held (bind p f).
Proof.
  induction p as [a | o k IH |]; intros held Hp Hf;
    cbn [bind running_discipline] in *.
  - subst held. apply Hf.
  - destruct Hp as (Ho & Hc & Hk). repeat split; auto.
  - exact Hp.
Qed.

Lemma try_delta_transition_until_delta_discipline (d : Z) :
  running_discipline false (FlusherSync.try_delta_transition_until_delta d).
Proof.
  unfold FlusherSync.try_delta_transition_until_delta.
  cbn [bind call running_discipline transition_op running_cond running_after].
  repeat split. intros s. destruct (delta_after_eq s d); [reflexivity|].
  cbn [bind call running_discipline transition_op running_cond running_after].
  repeat split.
  intros [|]; cbn [negb bind call running_discipline transition_op
                   running_cond running_after]; repeat split.
  intros s1. destruct (delta_after_eq s1 d);
    cbn [bind call running_discipline transition_op running_cond
         running_after]; repeat split.
Qed.

Lemma wait_event_killable_discipline (condition : prog Z) :
  running_discipline false condition ->
  forall n, running_discipline false (wait_event_killable n condition).
Proof.
  intros Hc.
  assert (Hloop : forall n,
            running_discipline false (__wait_event_killable n condition)).
  { induction n as [| n IH]; [reflexivity|].
    cbn [__wait_event_killable]. apply running_discipline_bind; [exact Hc|].
    intros c. destruct (c =? 0); [| reflexivity].
    cbn [bind call running_discipline transition_op running_cond
         running_after].
    repeat split. intros [|]; [reflexivity|].
    cbn [bind call running_discipline transition_op running_cond
         running_after].
    repeat split. intros _. exact IH. }
  intros n. unfold wait_event_killable.
  apply running_discipline_bind; [exact Hc|].
  intros c. destruct (c =? 0); [apply Hloop | reflexivity].
Qed.

Lemma wait_for_transition_discipline (n : nat) (d : Z) :
  running_discipline false (FlusherSync.wait_for_transition n d).
Proof.
  apply wait_event_killable_discipline.
  apply try_delta_transition_until_delta_discipline.
Qed.

Lemma try_delta_transition_discipline :
  running_discipline false FlusherSync.try_delta_transition.
Proof.
  unfold FlusherSync.try_delta_transition.
  cbn [bind call running_discipline transition_op running_cond running_after].
  repeat split.
  intros [|]; cbn [negb bind call running_discipline transition_op
                   running_cond running_after]; repeat split.
Qed.

Lemma transition_calls_app (h : list (nat * op)) (tid : nat) (o : op) :
  transition_calls (h ++ [(tid, o)]) =
  (transition_calls h + if is_transition o then 1 else 0)%nat.
Proof.
  induction h as [| [t o'] h IH].
  - cbn. destruct o; reflexivity.
  - cbn [app transition_calls]. destruct o'; rewrite IH; reflexivity.
Qed.

Lemma running_count_le (m : machine T) : (running_count m <= 1)%nat.
Proof. unfold running_count. destruct (bit_is_set _ m); lia. Qed.

Lemma running_count_set (m : machine T) :
  running_count
    (set_backend_state
       (Z.setbit (backend_state (the_sb m))
                 (Z.of_nat TUX3_COMMIT_RUNNING_BIT)) m) = 1%nat.
Proof.
  unfold running_count, bit_is_set. cbn.
  rewrite Z.setbit_eq by lia. reflexivity.
Qed.

Lemma running_count_clear (m : machine T) :
  running_count
    (set_backend_state
       (Z.clearbit (backend_state (the_sb m))
                   (Z.of_nat TUX3_COMMIT_RUNNING_BIT)) m) = 0%nat.
Proof. unfold running_count. now rewrite bit_is_set_clear. Qed.

Lemma nth_error_replace_same {A : Type} (ts : list (prog A)) :
  forall tid q p,
    nth_error ts tid = Some p ->
    nth_error (replace_thread tid q ts) tid = Some q.
Proof.
  induction ts as [| t ts IH]; intros [| tid] q p H; cbn in *;
    try discriminate H; eauto.
Qed.

Lemma nth_error_replace_other {A : Type} (ts : list (prog A)) :
  forall tid q i,
    i <> tid ->
    nth_error (replace_thread tid q ts) i = nth_error ts i.
Proof.
  induction ts as [| t ts IH]; intros [| tid] q [| i] H; cbn;
    try reflexivity; try (now elim H).
  apply IH. congruence.
Qed.

Lemma replace_keeps_thread {A : Type} (ts : list (prog A)) tid q p t :
  nth_error ts tid = Some p ->
  nth_error ts t <> None ->
  nth_error (replace_thread tid q ts) t <> None.
Proof.
  intros Hnth Ht. destruct (Nat.eq_dec t tid) as [-> | Hne].
  - rewrite (nth_error_replace_same _ _ _ _ Hnth). discriminate.
  - rewrite nth_error_replace_other by exact Hne. exact Ht.
Qed.

(** The threads other than [tid] are where they were, and none of them is
    the owner when [tid] is or when nobody is. *)
Lemma others_not_owner (i tid : nat) (owner : option nat) :
  i <> tid ->
  (owner = None \/ owner = Some tid) ->
  owner_is i owner = false /\ owner_is i (Some tid) = false /\
  owner_is i None = false.
Proof.
  intros Hne Ho. assert (Hf : Nat.eqb tid i = false)
    by (apply Nat.eqb_neq; congruence).
  destruct Ho as [-> | ->]; cbn [owner_is]; rewrite ?Hf; auto.
Qed.

Lemma driver_invariant_step {A : Type} (b0 tid : nat) (c : config T A) :
  transition_keeps_running_bit ->
  driver_invariant b0 c -> driver_invariant b0 (thread_step tid c).
Proof.
  intros Hkeep (owner & Hthreads & Hex & Hsum).
  unfold thread_step.
  destruct (nth_error (threads c) tid) as [[a | o k |] |] eqn:Hnth;
    try (exists owner; now repeat split).
  destruct (exec tid o (shared c)) as [v m' | |] eqn:Hexec;
    try (exists owner; now repeat split).
  pose proof (Hthreads tid _ Hnth) as Hd. cbn [running_discipline] in Hd.
  destruct Hd as (Hop & Hcond & Hk). specialize (Hk v).
  pose proof (running_count_le (shared c)) as Hle.
  assert (Hsame : forall q,
    (forall i p, nth_error (replace_thread tid q (threads c)) i = Some p ->
       i <> tid -> nth_error (threads c) i = Some p)).
  { intros q i p Hp Hne. now rewrite nth_error_replace_other in Hp. }
  destruct o; cbn [transition_op] in Hop; try contradiction;
    cbn [running_cond] in Hcond; cbn [running_after] in Hk;
    cbn in Hexec; inversion Hexec; subst; clear Hexec;
    cbn [threads shared history]; rewrite ?transition_calls_app;
    cbn [is_transition].
  - (* test_and_set_bit *)
    destruct (bit_is_set TUX3_COMMIT_RUNNING_BIT (shared c)) eqn:Hbit.
    + (* lost *)
      exists owner. cbn [threads shared history].
      rewrite ?transition_calls_app; cbn [is_transition].
      split; [| split].
      * intros i p Hp. destruct (Nat.eq_dec i tid) as [Heq | Hne]; [subst i |].
        -- rewrite (nth_error_replace_same _ _ _ _ Hnth) in Hp.
           inversion Hp; subst. rewrite Hcond. exact Hk.
        -- apply Hthreads. eapply Hsame; eauto.
      * intros t Ht. eapply replace_keeps_thread; eauto.
      * rewrite running_count_set. unfold running_count in Hsum.
        rewrite Hbit in Hsum. lia.
    + (* won *)
      unfold running_count in Hsum. rewrite Hbit in Hsum.
      assert (Hnone : owner = None) by (destruct owner; [lia | reflexivity]).
      subst owner. exists (Some tid). cbn [threads shared history].
      rewrite ?transition_calls_app; cbn [is_transition].
      split; [| split].
      * intros i p Hp. destruct (Nat.eq_dec i tid) as [Heq | Hne]; [subst i |].
        -- rewrite (nth_error_replace_same _ _ _ _ Hnth) in Hp.
           inversion Hp; subst. cbn [owner_is]. rewrite Nat.eqb_refl.
           exact Hk.
        -- destruct (others_not_owner i tid None Hne (or_introl eq_refl))
             as (_ & -> & _).
           apply (Hthreads i p). eapply Hsame; eauto.
      * intros t Ht. inversion Ht; subst.
        rewrite (nth_error_replace_same _ _ _ _ Hnth). discriminate.
      * rewrite running_count_set. lia.
  - (* clear_bit *)
    apply owner_is_true in Hcond. subst owner.
    exists None. cbn [threads shared history].
      rewrite ?transition_calls_app; cbn [is_transition].
      split; [| split].
    + intros i p Hp. destruct (Nat.eq_dec i tid) as [Heq | Hne]; [subst i |].
      * rewrite (nth_error_replace_same _ _ _ _ Hnth) in Hp.
        inversion Hp; subst. exact Hk.
      * destruct (others_not_owner i tid (Some tid) Hne (or_intror eq_refl))
          as (Hf & _ & ->).
        rewrite <- Hf. apply (Hthreads i p). eapply Hsame; eauto.
    + intros t Ht. discriminate Ht.
    + rewrite running_count_clear. lia.
  - (* staging_delta *)
    exists owner. cbn [threads shared history].
      rewrite ?transition_calls_app; cbn [is_transition].
      split; [| split].
    + intros i p Hp. destruct (Nat.eq_dec i tid) as [Heq | Hne]; [subst i |].
      * rewrite (nth_error_replace_same _ _ _ _ Hnth) in Hp.
        inversion Hp; subst. exact Hk.
      * apply Hthreads. eapply Hsame; eauto.
    + intros t Ht. eapply replace_keeps_thread; eauto.
    + lia.
  - (* delta_transition *)
    apply owner_is_true in Hcond. subst owner.
    exists None. cbn [threads shared history].
      rewrite ?transition_calls_app; cbn [is_transition].
      split; [| split].
    + intros i p Hp. destruct (Nat.eq_dec i tid) as [Heq | Hne]; [subst i |].
      * rewrite (nth_error_replace_same _ _ _ _ Hnth) in Hp.
        inversion Hp; subst. exact Hk.
      * destruct (others_not_owner i tid (Some tid) Hne (or_intror eq_refl))
          as (Hf & _ & ->).
        rewrite <- Hf. apply (Hthreads i p). eapply Hsame; eauto.
    + intros t Ht. discriminate Ht.
    + assert (Hrc : running_count
                (set_sb (delta_transition (the_sb (shared c))) (shared c)) =
                running_count (shared c)).
      { unfold running_count, bit_is_set. cbn. now rewrite Hkeep. }
      rewrite Hrc. lia.
  - (* fatal_signal_pending *)
    exists owner. cbn [threads shared history].
      rewrite ?transition_calls_app; cbn [is_transition].
      split; [| split].
    + intros i p Hp. destruct (Nat.eq_dec i tid) as [Heq | Hne]; [subst i |].
      * rewrite (nth_error_replace_same _ _ _ _ Hnth) in Hp.
        inversion Hp; subst. exact Hk.
      * apply Hthreads. eapply Hsame; eauto.
    + intros t Ht. eapply replace_keeps_thread; eauto.
    + lia.
  - (* schedule *)
    exists owner. cbn [threads shared history].
      rewrite ?transition_calls_app; cbn [is_transition].
      split; [| split].
    + intros i p Hp. destruct (Nat.eq_dec i tid) as [Heq | Hne]; [subst i |].
      * rewrite (nth_error_replace_same _ _ _ _ Hnth) in Hp.
        inversion Hp; subst. exact Hk.
      * apply Hthreads. eapply Hsame; eauto.
    + intros t Ht. eapply replace_keeps_thread; eauto.
    + lia.
Qed.

Lemma driver_invariant_run {A : Type} (b0 : nat) (sched : list nat) :
  transition_keeps_running_bit ->
  forall c : config T A,
    driver_invariant b0 c -> driver_invariant b0 (run_schedule sched c).
Proof.
  intros Hkeep. induction sched as [| tid sched IH]; intros c Hc.
  - exact Hc.
  - cbn. apply IH. now apply driver_invariant_step.
Qed.

Lemma driver_invariant_start {A : Type} (ts : list (prog A)) (m : machine T) :
  (forall p, In p ts -> running_discipline false p) ->
  driver_invariant (running_count m) (mk_config ts m []).
Proof.
  intros Hts. exists None. cbn [threads shared history transition_calls].
  split; [| split].
  - intros i p Hp. cbn [owner_is]. apply Hts. eapply nth_error_In; eauto.
  - intros t Ht. discriminate Ht.
  - lia.
Qed.

End Driver.

(** X6: any number of threads in [wait_for_transition] (sync or async
    flusher), each with its own target, under any schedule: as long as
    [delta_transition] leaves [TUX3_COMMIT_RUNNING_BIT] alone,
    [delta_transition] is called at most once, not at all if the bit was set
    at the start, and the bit is set once it was called. *)
Theorem wait_for_transition_one_driver {T : Type} {C : Collaborators T}
    (calls : list (nat * Z)) (m : machine T) (sched : list nat)
    (Hkeep : transition_keeps_running_bit) :
  let c := run_schedule sched
             (mk_config
                (map (fun a => FlusherSync.wait_for_transition (fst a) (snd a))
                     calls) m []) in
  (transition_calls (history c) + running_count m <= 1)%nat /\
  (transition_calls (history c) = 1%nat ->
   bit_is_set TUX3_COMMIT_RUNNING_BIT (shared c) = true).
Proof.
  intros c.
  destruct (driver_invariant_run (running_count m) sched Hkeep
              (mk_config
                 (map (fun a => FlusherSync.wait_for_transition (fst a) (snd a))
                      calls) m []))
    as (owner & _ & _ & Hsum).
  - apply driver_invariant_start. intros p Hp. apply in_map_iff in Hp.
    destruct Hp as ((n & d) & <- & _). apply wait_for_transition_discipline.
  - fold c in Hsum. pose proof (running_count_le (shared c)) as Hle.
    split; [destruct owner; lia|].
    intros H1. unfold running_count in Hsum, Hle.
    destruct (bit_is_set TUX3_COMMIT_RUNNING_BIT (shared c));
      [reflexivity | destruct owner; lia].
Qed.

Lemma wait_for_transition_one_driver_witness :
  (transition_calls
     (history
        (run_schedule (C := Demo.layer 0)
           [0; 1; 2; 0; 1; 2; 0; 1; 2; 0; 1; 2; 0; 1; 2; 0; 1; 2]%nat
           (mk_config
              (map (fun a => FlusherSync.wait_for_transition
                               (C := Demo.layer 0) (fst a) (snd a))
                   [(1%nat, 6%Z); (2%nat, 6%Z); (1%nat, 5%Z)])
              (Demo.volume 5 5 0 6 Demo.nobody) [])))
   + running_count (C := Demo.layer 0) (Demo.volume 5 5 0 6 Demo.nobody)
   <= 1)%nat.
Proof.
  apply (wait_for_transition_one_driver (C := Demo.layer 0)
           [(1%nat, 6%Z); (2%nat, 6%Z); (1%nat, 5%Z)]
           (Demo.volume 5 5 0 6 Demo.nobody)).
  intros s.
  change (Z.testbit (Z.setbit (backend_state s) 1) 0 =
          Z.testbit (backend_state s) 0).
  apply Z.setbit_neq; [lia | discriminate].
Defined.

(** The race of the design document: three threads waiting for delta 6, one
    transition, everybody returns 0. *)
Example wait_for_transition_race :
  let c := run_schedule (C := Demo.layer 0)
             [0; 1; 2; 0; 1; 2; 0; 1; 2; 0; 1; 2; 0; 1; 2; 0; 1; 2]%nat
             (mk_config
                (map (fun a => FlusherSync.wait_for_transition
                                 (C := Demo.layer 0) (fst a) (snd a))
                     [(1%nat, 6); (2%nat, 6); (1%nat, 6)])
                (Demo.volume 5 5 0 6 Demo.nobody) []) in
  transition_calls (history c) = 1%nat /\
  threads c = [Ret 0; Ret 0; Ret 0] /\
  staging_delta (the_sb (shared c)) = 6.
Proof. cbv zeta. repeat split. Qed.

Section DriverOnce.
Context {T : Type} {C : Collaborators T}.

Lemma bit_is_set_set (nr : nat) (v : Z) (m : machine T) :
  bit_is_set nr (set_backend_state (Z.setbit v (Z.of_nat nr)) m) = true.
Proof.
  unfold bit_is_set. cbn. apply Z.setbit_eq. lia.
Qed.

Lemma try_delta_transition_progress (tid : nat) (c : config T unit) :
  transition_keeps_running_bit ->
  Forall in_try_delta_transition (threads c) /\
  (bit_is_set TUX3_COMMIT_RUNNING_BIT (shared c) = true \/
   Forall (eq FlusherSync.try_delta_transition) (threads c)) ->
  Forall in_try_delta_transition (threads (thread_step tid c)) /\
  (bit_is_set TUX3_COMMIT_RUNNING_BIT (shared (thread_step tid c)) = true \/
   Forall (eq FlusherSync.try_delta_transition) (threads (thread_step tid c))).
Proof.
  intros Hkeep (Hin & Hbit).
  unfold thread_step.
  destruct (nth_error (threads c) tid) as [p |] eqn:Hnth; [| now split].
  pose proof (nth_error_Forall _ _ _ _ Hin Hnth) as Hp.
  destruct Hp as [-> | [-> | ->]].
  - (* test_and_set_bit *)
    cbn [FlusherSync.try_delta_transition bind call exec threads shared].
    split.
    + apply Forall_replace; [exact Hin|].
      destruct (bit_is_set TUX3_COMMIT_RUNNING_BIT (shared c)); cbn [negb].
      * right; right; reflexivity.
      * right; left; reflexivity.
    + left. apply bit_is_set_set.
  - (* delta_transition *)
    cbn [call exec threads shared]. split.
    + apply Forall_replace; [exact Hin|]. right; right; reflexivity.
    + left. destruct Hbit as [Hb | Hall].
      * unfold bit_is_set in *. cbn. now rewrite Hkeep.
      * pose proof (nth_error_Forall _ _ _ _ Hall Hnth) as Heq.
        unfold FlusherSync.try_delta_transition in Heq.
        cbn [bind call] in Heq. inversion Heq.
  - now split.
Qed.

Lemma try_delta_transition_progress_run (sched : list nat) :
  transition_keeps_running_bit ->
  forall c : config T unit,
    Forall in_try_delta_transition (threads c) /\
    (bit_is_set TUX3_COMMIT_RUNNING_BIT (shared c) = true \/
     Forall (eq FlusherSync.try_delta_transition) (threads c)) ->
    Forall in_try_delta_transition (threads (run_schedule sched c)) /\
    (bit_is_set TUX3_COMMIT_RUNNING_BIT (shared (run_schedule sched c)) = true \/
     Forall (eq FlusherSync.try_delta_transition)
            (threads (run_schedule sched c))).
Proof.
  intros Hkeep. induction sched as [| tid sched IH]; intros c Hc.
  - exact Hc.
  - cbn [run_schedule]. apply IH. now apply try_delta_transition_progress.
Qed.

Lemma length_run_schedule_any {A : Type} (sched : list nat) :
  forall c : config T A,
    length (threads (run_schedule sched c)) = length (threads c).
Proof.
  induction sched as [| tid sched IH]; intros c; [reflexivity|].
  cbn. rewrite IH. unfold thread_step.
  destruct (nth_error (threads c) tid) as [[a | o k |] |]; try reflexivity.
  destruct (exec tid o (shared c)); try reflexivity.
  cbn. apply length_replace.
Qed.

End DriverOnce.

(** X7: any number of threads in [try_delta_transition] of the sync
    flusher under any schedule: as long as [delta_transition] leaves
    [TUX3_COMMIT_RUNNING_BIT] alone, [delta_transition] is called at most
    once and not at all if the bit was set at the start; once all threads
    have returned the bit is set, and [delta_transition] was called exactly
    once if the bit was clear at the start. *)
Theorem try_delta_transition_elects_one {T : Type} {C : Collaborators T}
    (N : nat) (m : machine T) (sched : list nat)
    (Hkeep : transition_keeps_running_bit) :
  let c := run_schedule sched
             (mk_config (repeat FlusherSync.try_delta_transition N) m []) in
  (transition_calls (history c) + running_count m <= 1)%nat /\
  ((1 <= N)%nat -> forallb has_returned (threads c) = true ->
   (transition_calls (history c) + running_count m = 1)%nat /\
   bit_is_set TUX3_COMMIT_RUNNING_BIT (shared c) = true).
Proof.
  intros c.
  destruct (driver_invariant_run (running_count m) sched Hkeep
              (mk_config (repeat FlusherSync.try_delta_transition N) m []))
    as (owner & Hthreads & Hex & Hsum).
  { apply driver_invariant_start. intros p Hp. apply repeat_spec in Hp.
    subst p. apply try_delta_transition_discipline. }
  fold c in Hthreads, Hex, Hsum.
  pose proof (running_count_le (shared c)) as Hle.
  split; [destruct owner; lia|].
  intros HN Hall.
  destruct (try_delta_transition_progress_run sched Hkeep
              (mk_config (repeat FlusherSync.try_delta_transition N) m []))
    as (_ & Hbit).
  { cbn [threads shared]. split.
    - apply Forall_forall. intros p Hp. apply repeat_spec in Hp. subst p.
      left; reflexivity.
    - right. apply Forall_forall. intros p Hp. apply repeat_spec in Hp.
      now subst p. }
  fold c in Hbit.
  assert (Hlen : length (threads c) = N).
  { unfold c. rewrite length_run_schedule_any. cbn. apply repeat_length. }
  rewrite forallb_forall in Hall.
  assert (Hset : bit_is_set TUX3_COMMIT_RUNNING_BIT (shared c) = true).
  { destruct Hbit as [Hb | Hstart]; [exact Hb|].
    destruct (threads c) as [| p ts] eqn:Hts; [cbn in Hlen; lia|].
    inversion Hstart; subst.
    specialize (Hall FlusherSync.try_delta_transition (or_introl eq_refl)).
    discriminate Hall. }
  assert (Hown : owner = None).
  { destruct owner as [t |]; [| reflexivity]. exfalso.
    destruct (nth_error (threads c) t) as [p |] eqn:Hp;
      [| now apply (Hex t eq_refl)].
    specialize (Hthreads t p Hp). cbn [owner_is] in Hthreads.
    rewrite Nat.eqb_refl in Hthreads.
    specialize (Hall p (nth_error_In _ _ Hp)).
    destruct p; try discriminate Hall. cbn in Hthreads. discriminate Hthreads. }
  subst owner. unfold running_count in Hsum at 1. rewrite Hset in Hsum.
  split; [lia | exact Hset].
Qed.

Lemma try_delta_transition_elects_one_witness :
  (transition_calls
     (history
        (run_schedule (C := Demo.layer 0) [0; 1; 2; 2; 1; 0]%nat
           (mk_config
              (repeat (FlusherSync.try_delta_transition (C := Demo.layer 0)) 3)
              (Demo.volume 5 5 0 6 Demo.nobody) [])))
   + running_count (C := Demo.layer 0) (Demo.volume 5 5 0 6 Demo.nobody)
   = 1)%nat /\
  bit_is_set 0
    (shared
       (run_schedule (C := Demo.layer 0) [0; 1; 2; 2; 1; 0]%nat
          (mk_config
             (repeat (FlusherSync.try_delta_transition (C := Demo.layer 0)) 3)
             (Demo.volume 5 5 0 6 Demo.nobody) []))) = true.
Proof.
  apply (try_delta_transition_elects_one (C := Demo.layer 0) 3
           (Demo.volume 5 5 0 6 Demo.nobody) [0; 1; 2; 2; 1; 0]%nat).
  - intros s.
    change (Z.testbit (Z.setbit (backend_state s) 1) 0 =
            Z.testbit (backend_state s) 0).
    apply Z.setbit_neq; [lia | discriminate].
  - lia.
  - reflexivity.
Defined.

(* ------------------------------------------------------------------ *)
(** ** Waiting for a commit nobody can make *)

Section NothingPending.
Context {T : Type} {C : Collaborators T}.
Variable env : environment T.
Variable tid : nat.
Variable d : Z.
Hypothesis Hpending : keeps_not_pending env.
Hypothesis Hbehind : keeps_uncommitted env d.

Lemma try_flush_pending_until_delta_stuck (m : machine T) (tr : list op) :
  nothing_to_flush d m ->
  Forall (fun o => is_flush o = false) tr ->
  exists m' tr',
    run env tid (FlusherSync.try_flush_pending_until_delta d) m tr
      = Returned 0 m' tr' /\
    nothing_to_flush d m' /\
    Forall (fun o => is_flush o = false) tr'.
Proof.
  intros [Hp Hc] Htr.
  unfold FlusherSync.try_flush_pending_until_delta,
    FlusherSync.flush_pending_delta.
  cbn [bind call run exec].
  rewrite (Hbehind _ _ Hc). cbn [negb bind call run exec].
  assert (Hp1 : bit_is_set TUX3_COMMIT_PENDING_BIT
                  (env (length (tr ++ [ReadCommittedDelta]))
                       (env (length tr) m)) = false)
    by (apply Hpending, Hpending, Hp).
  rewrite Hp1. cbn [negb bind call run exec].
  assert (Hc1 : delta_after_eq
                  (committed_delta
                     (the_sb
                        (env (length ((tr ++ [ReadCommittedDelta]) ++
                                      [TestBit TUX3_COMMIT_PENDING_BIT]))
                             (env (length (tr ++ [ReadCommittedDelta]))
                                  (env (length tr) m))))) d = false)
    by (apply Hbehind, Hbehind, Hbehind, Hc).
  rewrite Hc1. cbn [Z.b2z].
  do 2 eexists. split; [reflexivity|]. split.
  - split; [apply Hpending, Hp1 | exact Hc1].
  - repeat (apply Forall_app; split); auto.
Qed.

Lemma wait_for_commit_stuck (n : nat) (m : machine T) (tr : list op) :
  nothing_to_flush d m ->
  Forall (fun o => is_flush o = false) tr ->
  asleep_or_killed tid (run env tid (FlusherSync.wait_for_commit n d) m tr) /\
  Forall (fun o => is_flush o = false)
         (trace_of (run env tid (FlusherSync.wait_for_commit n d) m tr)).
Proof.
  assert (Hloop : forall n m tr,
    nothing_to_flush d m ->
    Forall (fun o => is_flush o = false) tr ->
    asleep_or_killed tid
      (run env tid
         (__wait_event_killable n (FlusherSync.try_flush_pending_until_delta d))
         m tr) /\
    Forall (fun o => is_flush o = false)
      (trace_of
         (run env tid
            (__wait_event_killable n
               (FlusherSync.try_flush_pending_until_delta d)) m tr))).
  { clear n m tr. induction n as [| n IH]; intros m tr Hm Htr.
    - cbn. auto.
    - cbn [__wait_event_killable]. rewrite run_bind.
      destruct (try_flush_pending_until_delta_stuck m tr Hm Htr)
        as (m1 & tr1 & -> & Hm1 & Htr1).
      cbn [outcome_bind Z.eqb bind call run exec].
      destruct (killed (env (length tr1) m1) tid) eqn:Hk.
      + cbn [run asleep_or_killed trace_of]. split; [auto|].
        apply Forall_app; auto.
      + cbn [bind call run exec]. apply IH.
        * destruct Hm1 as [Hp Hc]. split.
          -- apply Hpending, Hpending, Hp.
          -- apply Hbehind, Hbehind, Hc.
        * repeat (apply Forall_app; split); auto. }
  intros Hm Htr. unfold FlusherSync.wait_for_commit, wait_event_killable.
  rewrite run_bind.
  destruct (try_flush_pending_until_delta_stuck m tr Hm Htr)
    as (m1 & tr1 & -> & Hm1 & Htr1).
  cbn [outcome_bind Z.eqb]. now apply Hloop.
Qed.

End NothingPending.

(** X8: [wait_for_commit] does not commit anything by itself: entered with
    the target not committed and no delta marked pending, and with nobody
    else marking one or committing, it never calls [flush_delta] and never
    returns 0; it stays asleep, or returns [-ERESTARTSYS] when killed. *)
Theorem wait_for_commit_nothing_pending {T : Type} {C : Collaborators T}
    (env : environment T) (tid n : nat) (d : Z) (m : machine T)
    (Hpending : keeps_not_pending env) (Hbehind : keeps_uncommitted env d)
    (Hm : nothing_to_flush d m) :
  asleep_or_killed tid (run env tid (FlusherSync.wait_for_commit n d) m []) /\
  count_ops is_flush
    (trace_of (run env tid (FlusherSync.wait_for_commit n d) m [])) = 0%nat.
Proof.
  destruct (wait_for_commit_stuck env tid d Hpending Hbehind n m [] Hm
              (Forall_nil _)) as [Hout Htr].
  split; [exact Hout|].
  unfold count_ops.
  induction (trace_of (run env tid (FlusherSync.wait_for_commit n d) m []))
    as [| o tr IH]; [reflexivity|].
  inversion Htr; subst. cbn [filter].
  match goal with H : is_flush o = false |- _ => rewrite H end. auto.
Qed.

Lemma wait_for_commit_nothing_pending_witness :
  asleep_or_killed 0
    (run (C := Demo.layer 0) alone 0
       (FlusherSync.wait_for_commit (C := Demo.layer 0) 4 6)
       (Demo.volume 6 5 1 7 Demo.nobody) []) /\
  count_ops is_flush
    (trace_of
       (run (C := Demo.layer 0) alone 0
          (FlusherSync.wait_for_commit (C := Demo.layer 0) 4 6)
          (Demo.volume 6 5 1 7 Demo.nobody) [])) = 0%nat.
Proof.
  apply (wait_for_commit_nothing_pending (C := Demo.layer 0) alone 0%nat 4%nat
           6 (Demo.volume 6 5 1 7 Demo.nobody)).
  - intros i m H. exact H.
  - intros i m H. exact H.
  - split; reflexivity.
Defined.

(* ------------------------------------------------------------------ *)
(** ** sync_current_delta, TUX3_FLUSHER_SYNC: driving a commit *)

(** X9: the sync flusher's [sync_current_delta], run with no other thread
    from a state with [delta_lock] free where the current delta [D] is not
    staged and no transition runs: if [delta_transition] stages [D] and
    leaves it marked pending, and [flush_delta] then commits [D], the call
    makes exactly that one transition and that one flush, releases
    [delta_lock] and returns 0, without ever sleeping. *)
Theorem sync_current_delta_drives_commit {T : Type} {C : Collaborators T}
    (tid n : nat) (unify_flag : unify_flags) (m : machine T) :
  let r := fst (reference_taken m) in
  let m1 := snd (reference_taken m) in
  let m2 := transition_made m1 in
  let m3 := flush_made m2 in
  delta_lock (the_sb m) = rwsem_free ->
  delta_after_eq (staging_delta (the_sb m1)) (delta r) = false ->
  bit_is_set TUX3_COMMIT_RUNNING_BIT m1 = false ->
  delta_after_eq (staging_delta (the_sb m2)) (delta r) = true ->
  delta_after_eq (committed_delta (the_sb m2)) (delta r) = false ->
  bit_is_set TUX3_COMMIT_PENDING_BIT m2 = true ->
  delta_after_eq (committed_delta (the_sb m3)) (delta r) = true ->
  run alone tid (FlusherSync.sync_current_delta n unify_flag) m [] =
  Returned 0
    (set_delta_lock (mk_rwsem false (readers (delta_lock (the_sb m3)))) m3)
    [DownWriteDeltaLock; CallDeltaGet; CallDeltaPut r;
     ReadStagingDelta; TestAndSetBit TUX3_COMMIT_RUNNING_BIT;
     ReadStagingDelta; CallDeltaTransition; ReadStagingDelta;
     ReadStagingDelta; Assert true;
     ReadCommittedDelta; TestBit TUX3_COMMIT_PENDING_BIT;
     TestAndClearBit TUX3_COMMIT_PENDING_BIT; CallFlushDelta;
     ReadCommittedDelta;
     ReadCommittedDelta; Assert true; UpWriteDeltaLock].
Proof.
  intros r m1 m2 m3 Hlock Hst1 Hrun Hst2 Hco2 Hpend Hco3.
  unfold FlusherSync.sync_current_delta, FlusherSync.wait_for_transition,
    FlusherSync.wait_for_commit, wait_event_killable,
    FlusherSync.try_delta_transition_until_delta,
    FlusherSync.try_flush_pending_until_delta,
    FlusherSync.flush_pending_delta.
  cbn [bind call run exec]. alone_steps. rewrite Hlock.
  cbn [writer readers rwsem_free orb negb Nat.eqb bind call run exec].
  alone_steps.
  change (set_sb
            (delta_put
               (fst (delta_get
                       (the_sb (set_delta_lock (mk_rwsem true 0) m))))
               (the_sb
                  (set_sb
                     (snd (delta_get
                             (the_sb (set_delta_lock (mk_rwsem true 0) m))))
                     (set_delta_lock (mk_rwsem true 0) m))))
            (set_sb
               (snd (delta_get
                       (the_sb (set_delta_lock (mk_rwsem true 0) m))))
               (set_delta_lock (mk_rwsem true 0) m)))
    with m1.
  change (fst (delta_get (the_sb (set_delta_lock (mk_rwsem true 0) m))))
    with r.
  rewrite Hst1. cbn [bind call run exec]. alone_steps.
  rewrite Hrun. cbn [negb bind call run exec]. alone_steps.
  cbn [staging_delta the_sb set_backend_state set_sb] in *.
  rewrite Hst1. cbn [bind call run exec]. alone_steps.
  change (set_sb
            (delta_transition
               (the_sb
                  (set_backend_state
                     (Z.setbit (backend_state (the_sb m1))
                               (Z.of_nat TUX3_COMMIT_RUNNING_BIT)) m1)))
            (set_backend_state
               (Z.setbit (backend_state (the_sb m1))
                         (Z.of_nat TUX3_COMMIT_RUNNING_BIT)) m1))
    with m2.
  rewrite Hst2. cbn [Z.b2z Z.eqb negb bind call run exec]. alone_steps.
  rewrite Hst2. cbn [bind call run exec]. alone_steps.
  rewrite Hco2. cbn [negb bind call run exec]. alone_steps.
  rewrite Hpend. cbn [negb bind call run exec]. alone_steps.
  rewrite Hpend. cbn [bind call run exec]. alone_steps.
  change (set_sb
            (snd (flush_delta
                    (the_sb
                       (set_backend_state
                          (Z.clearbit (backend_state (the_sb m2))
                                      (Z.of_nat TUX3_COMMIT_PENDING_BIT)) m2))))
            (set_backend_state
               (Z.clearbit (backend_state (the_sb m2))
                           (Z.of_nat TUX3_COMMIT_PENDING_BIT)) m2))
    with m3.
  rewrite Hco3. cbn [Z.b2z Z.eqb negb bind call run exec]. alone_steps.
  rewrite Hco3. cbn [bind call run exec]. alone_steps.
  reflexivity.
Qed.

Lemma sync_current_delta_drives_commit_witness :
  run (C := Demo.layer 0) alone 0
      (FlusherSync.sync_current_delta (C := Demo.layer 0) 0 ALLOW_UNIFY)
      (Demo.volume 5 5 0 6 Demo.nobody) [] =
  Returned 0
    (mk_machine (mk_sb 6 6 0 rwsem_free 7) rwsem_free MS_ACTIVE 7 Demo.nobody)
    [DownWriteDeltaLock; CallDeltaGet; CallDeltaPut (mk_delta_ref 6);
     ReadStagingDelta; TestAndSetBit 0; ReadStagingDelta;
     CallDeltaTransition; ReadStagingDelta; ReadStagingDelta; Assert true;
     ReadCommittedDelta; TestBit 1; TestAndClearBit 1; CallFlushDelta;
     ReadCommittedDelta; ReadCommittedDelta; Assert true; UpWriteDeltaLock].
Proof.
  apply (sync_current_delta_drives_commit (C := Demo.layer 0) 0%nat 0%nat
           ALLOW_UNIFY (Demo.volume 5 5 0 6 Demo.nobody)); reflexivity.
Defined.

(* ------------------------------------------------------------------ *)
(** ** sync_current_delta, TUX3_FLUSHER_SYNC: what success means *)

Lemma sync_current_delta_zero_unlocked {T : Type} {C : Collaborators T}
    (env : environment T) (tid n : nat) (unify_flag : unify_flags)
    (m m' : machine T) (tr : list op) :
  run env tid (FlusherSync.sync_current_delta n unify_flag) m []
    = Returned 0 m' tr ->
  writer (delta_lock (the_sb m')) = false /\
  exists pre, tr = pre ++ [UpWriteDeltaLock].
Proof.
  intros H.
  unfold FlusherSync.sync_current_delta in H.
  cbn [bind call run exec length] in H.
  match type of H with context [if ?b then Block else _] => destruct b end;
    [discriminate H|].
  cbn [bind call run exec length app] in H.
  apply run_bind_returned in H as (err & m2 & tr2 & _ & H).
  destruct (Z.eqb_spec err 0) as [-> | Hne];
    cbn [negb Z.eqb bind call run exec] in H.
  2:{ inversion H; subst. now elim Hne. }
  match type of H with context [Assert ?b] => destruct b end;
    [| discriminate H].
  cbn [bind call run exec] in H.
  apply run_bind_returned in H as (err1 & m3 & tr3 & _ & H).
  destruct (Z.eqb_spec err1 0) as [-> | Hne];
    cbn [negb Z.eqb bind call run exec] in H.
  - match type of H with context [Assert ?b] => destruct b end;
      [| discriminate H].
    cbn [bind call run exec] in H. inversion H; subst.
    split; [reflexivity | eauto].
  - inversion H; subst. now elim Hne.
Qed.

(** X10: in the sync flusher, a call of [sync_current_delta] that returns 0
    has released [delta_lock] as its last access, whatever the other
    threads and the storage layer do; and if the other threads never move
    [committed_delta] back, [committed_delta] is then at or after the delta
    the call took from [delta_get]. *)
Theorem sync_current_delta_success {T : Type} {C : Collaborators T}
    (env : environment T) (tid n : nat) (unify_flag : unify_flags)
    (m m' : machine T) (tr : list op)
    (Hret : run env tid (FlusherSync.sync_current_delta n unify_flag) m []
            = Returned 0 m' tr) :
  writer (delta_lock (the_sb m')) = false /\
  (exists pre, tr = pre ++ [UpWriteDeltaLock]) /\
  ((forall d, keeps_committed env d) ->
   let m1 := env 1%nat (set_delta_lock (mk_rwsem true 0) (env 0%nat m)) in
   delta_after_eq (committed_delta (the_sb m'))
                  (delta (fst (delta_get (the_sb m1)))) = true).
Proof.
  destruct (sync_current_delta_zero_unlocked env tid n unify_flag m m' tr Hret)
    as [Hw Hlast].
  split; [exact Hw|]. split; [exact Hlast|].
  intros Henv. eapply sync_current_delta_zero_committed; eauto.
Qed.

Lemma sync_current_delta_success_witness :
  writer rwsem_free = false /\
  (exists pre,
      [DownWriteDeltaLock; CallDeltaGet; CallDeltaPut (mk_delta_ref 6);
       ReadStagingDelta; TestAndSetBit 0; ReadStagingDelta;
       CallDeltaTransition; ReadStagingDelta; ReadStagingDelta; Assert true;
       ReadCommittedDelta; TestBit 1; TestAndClearBit 1; CallFlushDelta;
       ReadCommittedDelta; ReadCommittedDelta; Assert true; UpWriteDeltaLock]
      = pre ++ [UpWriteDeltaLock]) /\
  delta_after_eq 6 6 = true.
Proof.
  destruct (sync_current_delta_success (C := Demo.layer 0) alone 0%nat 0%nat
              ALLOW_UNIFY (Demo.volume 5 5 0 6 Demo.nobody)
              (mk_machine (mk_sb 6 6 0 rwsem_free 7)
                          rwsem_free MS_ACTIVE 7 Demo.nobody)
              [DownWriteDeltaLock; CallDeltaGet; CallDeltaPut (mk_delta_ref 6);
               ReadStagingDelta; TestAndSetBit 0; ReadStagingDelta;
               CallDeltaTransition; ReadStagingDelta; ReadStagingDelta;
               Assert true; ReadCommittedDelta; TestBit 1; TestAndClearBit 1;
               CallFlushDelta; ReadCommittedDelta; ReadCommittedDelta;
               Assert true; UpWriteDeltaLock] eq_refl) as (Hw & Hlast & Hco).
  split; [exact Hw|]. split; [exact Hlast|].
  apply Hco. intros d i m H. exact H.
Defined.

(* ------------------------------------------------------------------ *)
(** ** Waiting for a transition another thread drives *)

Section AnotherDriver.
Context {T : Type} {C : Collaborators T}.
Variable env : environment T.
Variable tid : nat.
Variable d : Z.
Hypothesis Hrunning : keeps_running env.
Hypothesis Hbehind : keeps_unstaged env d.

Lemma set_running_again (m : machine T) :
  bit_is_set TUX3_COMMIT_RUNNING_BIT
    (set_backend_state
       (Z.setbit (backend_state (the_sb m))
                 (Z.of_nat TUX3_COMMIT_RUNNING_BIT)) m) = true.
Proof. unfold bit_is_set. cbn. apply Z.setbit_eq. lia. Qed.

Lemma try_delta_transition_until_delta_lost (m : machine T) (tr : list op) :
  driven_by_another d m ->
  Forall (fun o => is_transition o = false) tr ->
  exists m' tr',
    run env tid (FlusherSync.try_delta_transition_until_delta d) m tr
      = Returned 0 m' tr' /\
    driven_by_another d m' /\
    Forall (fun o => is_transition o = false) tr'.
Proof.
  intros [Hr Hs] Htr.
  unfold FlusherSync.try_delta_transition_until_delta.
  cbn [bind call run exec].
  rewrite (Hbehind _ _ Hs). cbn [bind call run exec].
  assert (Hr1 : bit_is_set TUX3_COMMIT_RUNNING_BIT
                  (env (length (tr ++ [ReadStagingDelta]))
                       (env (length tr) m)) = true)
    by (apply Hrunning, Hrunning, Hr).
  rewrite Hr1. cbn [negb bind call run exec].
  match goal with
  | |- context [delta_after_eq (staging_delta (the_sb (env ?i ?m0))) d] =>
      assert (Hs1 : delta_after_eq (staging_delta (the_sb (env i m0))) d
                    = false)
  end.
  { apply Hbehind. cbn. apply Hbehind, Hbehind, Hs. }
  rewrite Hs1. cbn [Z.b2z].
  do 2 eexists. split; [reflexivity|]. split.
  - split; [| exact Hs1]. apply Hrunning, set_running_again.
  - repeat (apply Forall_app; split); auto.
Qed.

Lemma wait_for_transition_lost (n : nat) (m : machine T) (tr : list op) :
  driven_by_another d m ->
  Forall (fun o => is_transition o = false) tr ->
  asleep_or_killed tid
    (run env tid (FlusherSync.wait_for_transition n d) m tr) /\
  Forall (fun o => is_transition o = false)
         (trace_of (run env tid (FlusherSync.wait_for_transition n d) m tr)).
Proof.
  assert (Hloop : forall n m tr,
    driven_by_another d m ->
    Forall (fun o => is_transition o = false) tr ->
    asleep_or_killed tid
      (run env tid
         (__wait_event_killable n
            (FlusherSync.try_delta_transition_until_delta d)) m tr) /\
    Forall (fun o => is_transition o = false)
      (trace_of
         (run env tid
            (__wait_event_killable n
               (FlusherSync.try_delta_transition_until_delta d)) m tr))).
  { clear n m tr. induction n as [| n IH]; intros m tr Hm Htr.
    - cbn. auto.
    - cbn [__wait_event_killable]. rewrite run_bind.
      destruct (try_delta_transition_until_delta_lost m tr Hm Htr)
        as (m1 & tr1 & -> & Hm1 & Htr1).
      cbn [outcome_bind Z.eqb bind call run exec].
      destruct (killed (env (length tr1) m1) tid) eqn:Hk.
      + cbn [run asleep_or_killed trace_of]. split; [auto|].
        apply Forall_app; auto.
      + cbn [bind call run exec]. apply IH.
        * destruct Hm1 as [Hr Hs]. split.
          -- apply Hrunning, Hrunning, Hr.
          -- apply Hbehind, Hbehind, Hs.
        * repeat (apply Forall_app; split); auto. }
  intros Hm Htr. unfold FlusherSync.wait_for_transition, wait_event_killable.
  rewrite run_bind.
  destruct (try_delta_transition_until_delta_lost m tr Hm Htr)
    as (m1 & tr1 & -> & Hm1 & Htr1).
  cbn [outcome_bind Z.eqb]. now apply Hloop.
Qed.

End AnotherDriver.

Lemma count_ops_none (f : op -> bool) (tr : list op) :
  Forall (fun o => f o = false) tr -> count_ops f tr = 0%nat.
Proof.
  unfold count_ops. induction 1 as [| o tr Ho _ IH]; [reflexivity|].
  cbn [filter]. now rewrite Ho.
Qed.

(** X11: a thread in [wait_for_transition] that loses the election does no
    transition of its own: entered with the target not staged while another
    thread holds [TUX3_COMMIT_RUNNING_BIT], and as long as that thread
    neither stages the delta nor gives up the bit, it never calls
    [delta_transition] and never returns 0; it stays asleep, or returns
    [-ERESTARTSYS] when killed. *)
Theorem wait_for_transition_loser_waits {T : Type} {C : Collaborators T}
    (env : environment T) (tid n : nat) (d : Z) (m : machine T)
    (Hrunning : keeps_running env) (Hbehind : keeps_unstaged env d)
    (Hm : driven_by_another d m) :
  asleep_or_killed tid
    (run env tid (FlusherSync.wait_for_transition n d) m []) /\
  count_ops is_transition
    (trace_of (run env tid (FlusherSync.wait_for_transition n d) m []))
  = 0%nat.
Proof.
  destruct (wait_for_transition_lost env tid d Hrunning Hbehind n m [] Hm
              (Forall_nil _)) as [Hout Htr].
  split; [exact Hout | now apply count_ops_none].
Qed.

Lemma wait_for_transition_loser_waits_witness :
  asleep_or_killed 0
    (run (C := Demo.layer 0) alone 0
       (FlusherSync.wait_for_transition (C := Demo.layer 0) 3 6)
       (Demo.volume 5 5 1 6 Demo.everybody) []) /\
  count_ops is_transition
    (trace_of
       (run (C := Demo.layer 0) alone 0
          (FlusherSync.wait_for_transition (C := Demo.layer 0) 3 6)
          (Demo.volume 5 5 1 6 Demo.everybody) [])) = 0%nat.
Proof.
  apply (wait_for_transition_loser_waits (C := Demo.layer 0) alone 0%nat 3%nat
           6 (Demo.volume 5 5 1 6 Demo.everybody)).
  - intros i m H. exact H.
  - intros i m H. exact H.
  - split; reflexivity.
Defined.

(* ------------------------------------------------------------------ *)
(** ** tux3_writeback, TUX3_FLUSHER_ASYNC: the passes that do not flush *)

Lemma tux3_writeback_not_done {T : Type} {C : Collaborators T}
    (env : environment T) (tid n : nat) (m m' : machine T) (r : Z)
    (tr : list op) :
  run env tid (FlusherAsync.tux3_writeback n) m [] = Returned r m' tr ->
  r <> 1 ->
  (r = 0 \/ r = - ERESTARTSYS) /\
  Forall (fun o => flushes_or_stores o = false) tr.
Proof.
  intros H Hr. unfold FlusherAsync.tux3_writeback in H.
  cbn [bind call run exec length] in H.
  destruct (Z.land (s_flags (env 0%nat m)) MS_ACTIVE =? 0).
  - inversion H; subst. split; [now left|]. repeat constructor.
  - cbn [bind call run exec] in H.
    apply run_bind_returned in H as (err & m1 & tr1 & Hw & H).
    pose proof Hw as Hcode.
    apply wait_for_transition_codes in Hcode as [-> | [-> Hk]].
    + exfalso.
      cbn [negb Z.eqb bind call run exec] in H.
      match type of H with context [Assert ?b] => destruct b end;
        [| discriminate H].
      cbn [bind call run exec] in H.
      apply run_bind_returned in H as ([] & m2 & tr2 & _ & H).
      cbn [bind call run exec] in H.
      match type of H with context [if ?b then _ else _] => destruct b end;
        cbn [bind call run exec fst snd] in H; inversion H; subst;
        now elim Hr.
    + cbn in H. inversion H; subst. split; [now right|].
      match type of Hw with
      | run env tid ?p ?m0 ?tr0 = _ =>
          assert (Hops : Forall (fun o => flushes_or_stores o = false)
                           (trace_of (run env tid p m0 tr0)))
      end.
      { apply only_ops_run.
        - apply only_ops_weaken with (P := transition_op).
          + intros [] Ho; try (now elim Ho); reflexivity.
          + rewrite async_wait_for_transition. apply wait_for_transition_ops.
        - repeat constructor. }
      rewrite Hw in Hops. exact Hops.
Qed.

(** X12: a pass of [tux3_writeback] that returns anything but 1 returns 0
    (the volume was not active) or [-ERESTARTSYS] (killed while waiting for
    the transition), and has neither called [flush_delta] nor written
    [*nr_pages], whatever the other threads do. *)
Theorem tux3_writeback_unfinished_pass {T : Type} {C : Collaborators T}
    (env : environment T) (tid n : nat) (m m' : machine T) (r : Z)
    (tr : list op)
    (Hret : run env tid (FlusherAsync.tux3_writeback n) m [] = Returned r m' tr)
    (Hr : r <> 1) :
  (r = 0 \/ r = - ERESTARTSYS) /\
  count_ops flushes_or_stores tr = 0%nat.
Proof.
  destruct (tux3_writeback_not_done env tid n m m' r tr Hret Hr) as [Hc Htr].
  split; [exact Hc | now apply count_ops_none].
Qed.

Lemma tux3_writeback_unfinished_pass_witness :
  (- ERESTARTSYS = 0 \/ - ERESTARTSYS = - ERESTARTSYS) /\
  count_ops flushes_or_stores
    [ReadSFlags; CallDeltaGet; CallDeltaPut (mk_delta_ref 6);
     ReadStagingDelta; TestAndSetBit 0; ReadStagingDelta;
     ReadStagingDelta; TestAndSetBit 0; ReadStagingDelta;
     FatalSignalPending] = 0%nat.
Proof.
  apply (tux3_writeback_unfinished_pass (C := Demo.layer 0) alone 0%nat 1%nat
           (Demo.volume 5 5 1 6 Demo.everybody)
           (Demo.volume 5 5 1 6 Demo.everybody)
           (- ERESTARTSYS)).
  - reflexivity.
  - discriminate.
Defined.
